(** * lazy-freeze: a shallow embedding of [lazy_freeze/decorator.py] and
    [lazy_freeze/lf_list.py], with the properties of the freeze protocol.

    Python objects live in a heap indexed by locations; a method is a
    computation in a state-and-exception monad over the receiver's fields.
    What the interpreter supplies (string formatting, [==], the hash of a
    tuple, [list.sort], the call stack) is collected in the class
    [Builtins] or passed as an explicit argument. *)

From Stdlib Require Import ZArith.
From stdpp Require Import gmap strings list pretty.

Set Warnings "-register-all".

(* ===================================================================== *)
(** ** Python values, exceptions and the method monad                      *)
(* ===================================================================== *)

Module Py.

(** Builtin data values.  Elements of containers, operands and attribute
    values range over this type; references to user objects are returned
    by methods as [RObj], see [retval]. *)
Inductive pyval : Type :=
  | VNone
  | VBool (b : bool)
  | VInt (z : Z)
  | VStr (s : string)
  | VTuple (items : list pyval)
  | VList (items : list pyval)
  | VDict (kvs : list (pyval * pyval)).

Arguments VInt z%_Z.

Abbreviation loc := positive.

(** What a call returns: [None], a reference to a heap object, or a value. *)
Inductive retval : Type :=
  | RNone
  | RObj (a : loc)
  | RVal (v : pyval).

Inductive exn : Type :=
  | TypeError (msg : string)
  | AssertionError (msg : string)
  | ValueError (msg : string)
  | IndexError (msg : string)
  | AttributeError (msg : string)
  | SystemError (msg : string)
  | OverflowError (msg : string)
  | MemoryError (msg : string).

Inductive result (A : Type) : Type :=
  | Ok (a : A)
  | Raise (e : exn).
Arguments Ok {A} a.
Arguments Raise {A} e.

(** State-and-exception monad: a raised exception keeps the state reached
    so far, as a Python exception does. *)
Definition M (S A : Type) : Type := S -> result A * S.

Definition ret {S A} (a : A) : M S A := fun s => (Ok a, s).
Definition raise {S A} (e : exn) : M S A := fun s => (Raise e, s).
Definition lift {S A} (r : result A) : M S A := fun s => (r, s).
Definition bind {S A B} (m : M S A) (k : A -> M S B) : M S B :=
  fun s => match m s with
           | (Ok a, s') => k a s'
           | (Raise e, s') => (Raise e, s')
           end.
Definition get {S} : M S S := fun s => (Ok s, s).
Definition modify {S} (f : S -> S) : M S unit := fun s => (Ok tt, f s).

Declare Scope py_scope.
Delimit Scope py_scope with py.
Notation "x <- m ;; k" := (bind m (fun x => k))
  (at level 100, m at next level, right associativity) : py_scope.
Notation "m ;;; k" := (bind m (fun _ => k))
  (at level 100, right associativity) : py_scope.

(** [type(v).__name__] *)
Definition type_name (v : pyval) : string :=
  match v with
  | VNone => "NoneType"
  | VBool _ => "bool"
  | VInt _ => "int"
  | VStr _ => "str"
  | VTuple _ => "tuple"
  | VList _ => "list"
  | VDict _ => "dict"
  end.

(** Truth value of [v] in a condition. *)
Definition py_truthy (v : pyval) : bool :=
  match v with
  | VNone => false
  | VBool b => b
  | VInt z => negb (z =? 0)%Z
  | VStr s => negb (String.eqb s "")
  | VTuple l | VList l => negb (Nat.eqb (length l) 0)
  | VDict kvs => negb (Nat.eqb (length kvs) 0)
  end.

(** The attribute [__hash__] as found on the type of a value: every type
    inherits it from [object]; the mutable builtins set it to [None], so
    the attribute is present on them as well. *)
Inductive hash_attr : Type :=
  | HashMethod
  | HashIsNone.

Definition getattr_hash (v : pyval) : option hash_attr :=
  match v with
  | VList _ | VDict _ => Some HashIsNone
  | VNone | VBool _ | VInt _ | VStr _ | VTuple _ => Some HashMethod
  end.

(** [hasattr(v, '__hash__')] *)
Definition hasattr_hash (v : pyval) : bool :=
  match getattr_hash v with
  | Some _ => true
  | None => false
  end.

(** The type named by [hash(v)] when it raises "unhashable type", if it
    does: a list or a dict, or a tuple with such a component. *)
Fixpoint unhashable_type (v : pyval) : option string :=
  match v with
  | VList _ => Some "list"
  | VDict _ => Some "dict"
  | VTuple items =>
      (fix first (l : list pyval) : option string :=
         match l with
         | [] => None
         | x :: r => match unhashable_type x with
                     | Some t => Some t
                     | None => first r
                     end
         end) items
  | VNone | VBool _ | VInt _ | VStr _ => None
  end.

(** [v] supports a hash computation. *)
Definition hashable (v : pyval) : bool :=
  match unhashable_type v with
  | Some _ => false
  | None => true
  end.

(** [for item in v]: the items an iteration over [v] yields. *)
Definition py_iter (v : pyval) : result (list pyval) :=
  match v with
  | VList l | VTuple l => Ok l
  | VDict kvs => Ok (kvs.*1)
  | VStr s => Ok ((fun c => VStr (String c EmptyString)) <$> String.list_ascii_of_string s)
  | VNone | VBool _ | VInt _ =>
      Raise (TypeError ("'" +:+ type_name v +:+ "' object is not iterable"))
  end.

(** Functions of the interpreter that the repository calls and does not
    define. *)
Class Builtins : Type := {
  (** [str(v)], as an f-string formats [v] *)
  builtin_str : pyval -> string;
  (** [str] of a captured stack summary *)
  stack_str : list string -> string;
  (** [x == y] on values *)
  py_eq : pyval -> pyval -> bool;
  (** [hash(tuple(items))] when every item is hashable *)
  tuple_hash : list pyval -> Z;
  (** [list.sort] applied to positional and keyword arguments: the outcome
      and the list it leaves *)
  list_sort : list pyval -> list (string * pyval) -> list pyval ->
              result unit * list pyval
}.

(** [hash(tuple(items))] *)
Definition py_hash_tuple `{Builtins} (items : list pyval) : result Z :=
  match unhashable_type (VTuple items) with
  | Some t => Raise (TypeError ("unhashable type: '" +:+ t +:+ "'"))
  | None => Ok (tuple_hash items)
  end.

(** *** The builtin [list] operations used on [self.data]

    Subscripts are integer indices; slices are not modelled.  A right
    operand of [+=] and [*=] is a builtin value. *)

(** The largest [Py_ssize_t] (64 bits). *)
Definition ssize_max : Z := 9223372036854775807%Z.

(** Whether the Python int [i], used as an index into a list of [len]
    items, converts to a [Py_ssize_t].  A list never holds more than
    [ssize_max] items, so an index between [-len] and [len] always does. *)
Definition fits_ssize (len : nat) (i : Z) : bool :=
  ((- ssize_max - 1 <=? i) && (i <=? ssize_max))%Z
  || ((- Z.of_nat len <=? i) && (i <=? Z.of_nat len))%Z.

(** Position denoted by the index [i] in a list of [len] items. *)
Definition norm_index (len : nat) (i : Z) : option nat :=
  let j := if (i <? 0)%Z then (i + Z.of_nat len)%Z else i in
  if ((0 <=? j) && (j <? Z.of_nat len))%Z then Some (Z.to_nat j) else None.

(** [l[i] = x] *)
Definition list_setitem (i : Z) (x : pyval) (l : list pyval) : result (list pyval) :=
  if negb (fits_ssize (length l) i) then
    Raise (IndexError "cannot fit 'int' into an index-sized integer")
  else
    match norm_index (length l) i with
    | Some n => Ok (<[n := x]> l)
    | None => Raise (IndexError "list assignment index out of range")
    end.

(** [del l[i]] *)
Definition list_delitem (i : Z) (l : list pyval) : result (list pyval) :=
  if negb (fits_ssize (length l) i) then
    Raise (IndexError "cannot fit 'int' into an index-sized integer")
  else
    match norm_index (length l) i with
    | Some n => Ok (delete n l)
    | None => Raise (IndexError "list assignment index out of range")
    end.

(** Where [l.insert(i, x)] puts [x] once [i] is a [Py_ssize_t]: the
    position is clamped to the list. *)
Definition list_insert_at (i : Z) (x : pyval) (l : list pyval) : list pyval :=
  let n := Z.of_nat (length l) in
  let j := if (i <? 0)%Z then Z.max 0 (i + n) else Z.min i n in
  take (Z.to_nat j) l ++ x :: drop (Z.to_nat j) l.

(** [l.insert(i, x)] *)
Definition list_insert (i : Z) (x : pyval) (l : list pyval) : result (list pyval) :=
  if negb (fits_ssize (length l) i) then
    Raise (OverflowError "Python int too large to convert to C ssize_t")
  else Ok (list_insert_at i x l).

(** [l.pop(i)]: the index is converted before the list is looked at. *)
Definition list_pop (i : Z) (l : list pyval) : result (pyval * list pyval) :=
  if negb (fits_ssize (length l) i) then
    Raise (OverflowError "Python int too large to convert to C ssize_t")
  else
    match l with
    | [] => Raise (IndexError "pop from empty list")
    | _ =>
        match norm_index (length l) i with
        | Some n =>
            match l !! n with
            | Some x => Ok (x, delete n l)
            | None => Raise (IndexError "pop index out of range")
            end
        | None => Raise (IndexError "pop index out of range")
        end
    end.


(** [l.remove(x)]: drops the first item equal to [x]. *)
Fixpoint list_remove_first `{Builtins} (x : pyval) (l : list pyval) : option (list pyval) :=
  match l with
  | [] => None
  | y :: r => if py_eq y x then Some r
              else match list_remove_first x r with
                   | Some r' => Some (y :: r')
                   | None => None
                   end
  end.

Definition list_remove `{Builtins} (x : pyval) (l : list pyval) : result (list pyval) :=
  match list_remove_first x l with
  | Some l' => Ok l'
  | None => Raise (ValueError "list.remove(x): x not in list")
  end.

(** [kwargs.get(key, default)] *)
Fixpoint kwargs_get (key : string) (default : pyval) (kwargs : list (string * pyval)) : pyval :=
  match kwargs with
  | [] => default
  | (k, v) :: r => if String.eqb k key then v else kwargs_get key default r
  end.

(** An f-string field [{v}]: a string is inserted as it is, any other value
    through [str]. *)
Definition py_format `{Builtins} (v : pyval) : string :=
  match v with
  | VStr s => s
  | _ => builtin_str v
  end.

(** A plain instance of [Builtins], for evaluating the model on examples. *)
Definition plain_str (v : pyval) : string :=
  match v with
  | VNone => "None"
  | VBool true => "True"
  | VBool false => "False"
  | VInt z => pretty z
  | VStr s => s
  | VTuple _ => "(...)"
  | VList _ => "[...]"
  | VDict _ => "{...}"
  end.

Definition plain_eq (x y : pyval) : bool :=
  match x, y with
  | VNone, VNone => true
  | VBool a, VBool b => Bool.eqb a b
  | VInt a, VInt b => (a =? b)%Z
  | VStr a, VStr b => String.eqb a b
  | _, _ => false
  end.

Definition plain_tuple_hash (items : list pyval) : Z :=
  foldl (fun acc v => match v with
                      | VInt z => (31 * acc + z)%Z
                      | _ => (31 * acc)%Z
                      end) 7%Z items.

Definition plain_builtins : Builtins := {|
  builtin_str := plain_str;
  stack_str := String.concat ", ";
  py_eq := plain_eq;
  tuple_hash := plain_tuple_hash;
  list_sort := fun _ _ l => (Ok tt, l)
|}.

End Py.

(* ===================================================================== *)
(** ** [lazy_freeze/lf_list.py]: the hashable list                         *)
(* ===================================================================== *)

Module LfList.
Import Py.
Local Open Scope py_scope.

(** The fields of an [lf_list] instance: [data] comes from [UserList],
    the other three are set by [__init__]. *)
Record lf_list : Type := mk_lf_list {
  data : list pyval;
  hash_taken : bool;
  _debug : pyval;
  _hash_stack : option (list string)
}.

Abbreviation heap := (gmap loc lf_list).

Definition set_data (d : list pyval) (o : lf_list) : lf_list :=
  mk_lf_list d (hash_taken o) (_debug o) (_hash_stack o).
Definition set_hash_taken (b : bool) (o : lf_list) : lf_list :=
  mk_lf_list (data o) b (_debug o) (_hash_stack o).
Definition set_hash_stack (s : option (list string)) (o : lf_list) : lf_list :=
  mk_lf_list (data o) (hash_taken o) (_debug o) s.

(** *** [collections.UserList.__init__(self, initlist=None)]

    The base class is the standard library's.  Binding the call's arguments
    to the one parameter [initlist] follows the interpreter: keywords are
    matched in order, an unknown one is an error, then surplus positional
    arguments are. *)
Fixpoint bind_initlist_kw (slot : option pyval) (kwargs : list (string * pyval))
  : result (option pyval) :=
  match kwargs with
  | [] => Ok slot
  | (k, v) :: r =>
      if String.eqb k "initlist" then
        match slot with
        | Some _ =>
            Raise (TypeError "UserList.__init__() got multiple values for argument 'initlist'")
        | None => bind_initlist_kw (Some v) r
        end
      else
        Raise (TypeError ("UserList.__init__() got an unexpected keyword argument '"
                          +:+ k +:+ "'"))
  end.

Definition bind_initlist (args : list pyval) (kwargs : list (string * pyval)) : result pyval :=
  match bind_initlist_kw (head args) kwargs with
  | Raise e => Raise e
  | Ok slot =>
      if Nat.ltb 1 (length args) then
        Raise (TypeError ("UserList.__init__() takes from 1 to 2 positional arguments but "
                          +:+ pretty (S (length args)) +:+ " were given"))
      else Ok (default VNone slot)
  end.

Definition UserList_init (args : list pyval) (kwargs : list (string * pyval))
  : result (list pyval) :=
  match bind_initlist args kwargs with
  | Raise e => Raise e
  | Ok VNone => Ok []
  | Ok initlist => py_iter initlist
  end.

(** *** The methods of [lf_list] *)

Section Methods.
Context {env : Builtins}.

(** [__init__] with its positional and keyword arguments: the fields of
    the new instance. *)
Definition __init__ (args : list pyval) (kwargs : list (string * pyval)) : result lf_list :=
  match UserList_init args kwargs with
  | Raise e => Raise e
  | Ok d =>
      Ok {| data := d;
            hash_taken := false;
            _debug := kwargs_get "debug" (VBool false) kwargs;
            _hash_stack := None |}
  end.

(** [f"{self._hash_stack}"] *)
Definition hash_stack_str (s : option (list string)) : string :=
  match s with
  | None => "None"
  | Some frames => stack_str frames
  end.

(** [__hash__(self)]; [frames] is what [traceback.extract_stack()] yields
    at this call. *)
Definition __hash__ (frames : list string) (self : loc) : M lf_list Z :=
  modify (set_hash_taken true) ;;;
  o <- get ;;
  (if py_truthy (_debug o) then modify (set_hash_stack (Some frames)) else ret tt) ;;;
  o <- get ;;
  lift (py_hash_tuple (data o)).

(** The error with which a frozen container rejects a mutation. *)
Definition frozen_error (o : lf_list) : exn :=
  if py_truthy (_debug o) then
    TypeError ("Cannot modify lf_list, hash was taken at " +:+ hash_stack_str (_hash_stack o))
  else
    TypeError "Cannot modify lf_list after hash is taken".

(** The block [if self.hash_taken: ...] that ends both [validate] and
    [validate_sequence]. *)
Definition raise_if_frozen : M lf_list unit :=
  o <- get ;;
  if hash_taken o then raise (frozen_error o) else ret tt.

Definition unhashable_error (v : pyval) : exn :=
  TypeError ("Attempted adding an unhashable object " +:+ py_format v +:+ " to lf_list").

(** [validate(self, value=None)] *)
Definition validate (self : loc) (value : pyval) : M lf_list unit :=
  o <- get ;;
  (if py_truthy (_debug o) then
     match value with
     | VNone => ret tt
     | _ => if negb (hasattr_hash value) then raise (unhashable_error value) else ret tt
     end
   else ret tt) ;;;
  raise_if_frozen.

(** The loop [for item in sequence: if not hasattr(item, '__hash__'): raise]. *)
Fixpoint check_items (items : list pyval) : M lf_list unit :=
  match items with
  | [] => ret tt
  | item :: rest =>
      if negb (hasattr_hash item) then raise (unhashable_error item)
      else check_items rest
  end.

(** [validate_sequence(self, sequence)], called with the positional
    arguments [args]. *)
Definition validate_sequence (self : loc) (args : list pyval) : M lf_list unit :=
  match args with
  | [] =>
      raise (TypeError
        "lf_list.validate_sequence() missing 1 required positional argument: 'sequence'")
  | [sequence] =>
      o <- get ;;
      (if py_truthy (_debug o) then
         items <- lift (py_iter sequence) ;;
         check_items items
       else ret tt) ;;;
      raise_if_frozen
  | _ :: _ :: _ =>
      raise (TypeError ("lf_list.validate_sequence() takes 2 positional arguments but "
                        +:+ pretty (S (length args)) +:+ " were given"))
  end.

(** An operation of the builtin list applied to [self.data]. *)
Definition update_data (f : list pyval -> result (list pyval)) : M lf_list unit :=
  o <- get ;;
  d <- lift (f (data o)) ;;
  modify (set_data d).

Definition __setitem__ (self : loc) (index : Z) (value : pyval) : M lf_list retval :=
  validate self value ;;;
  update_data (list_setitem index value) ;;;
  ret RNone.

Definition __delitem__ (self : loc) (index : Z) : M lf_list retval :=
  validate self VNone ;;;
  update_data (list_delitem index) ;;;
  ret RNone.

Definition append (self : loc) (value : pyval) : M lf_list retval :=
  validate self value ;;;
  update_data (fun d => Ok (d ++ [value])) ;;;
  ret (RObj self).

Definition extend (self : loc) (iterable : pyval) : M lf_list retval :=
  validate_sequence self [] ;;;
  update_data (fun d => match py_iter iterable with
                        | Ok items => Ok (d ++ items)
                        | Raise e => Raise e
                        end) ;;;
  ret (RObj self).

Definition insert (self : loc) (index : Z) (value : pyval) : M lf_list retval :=
  validate self value ;;;
  update_data (list_insert index value) ;;;
  ret (RObj self).

(** [pop(self, index=-1)] *)
Definition pop (self : loc) (index : option Z) : M lf_list retval :=
  validate self VNone ;;;
  o <- get ;;
  xd <- lift (list_pop (default (-1)%Z index) (data o)) ;;
  modify (set_data xd.2) ;;;
  ret (RVal xd.1).

Definition remove (self : loc) (value : pyval) : M lf_list retval :=
  validate self VNone ;;;
  update_data (list_remove value) ;;;
  ret (RObj self).

Definition clear (self : loc) : M lf_list retval :=
  validate self VNone ;;;
  update_data (fun _ => Ok []) ;;;
  ret (RObj self).

Definition reverse (self : loc) : M lf_list retval :=
  validate self VNone ;;;
  update_data (fun d => Ok (rev d)) ;;;
  ret (RObj self).

Definition sort (self : loc) (args : list pyval) (kwargs : list (string * pyval))
  : M lf_list retval :=
  validate self VNone ;;;
  o <- get ;;
  modify (set_data (list_sort args kwargs (data o)).2) ;;;
  lift (list_sort args kwargs (data o)).1 ;;;
  ret (RObj self).

(** [self.data += other] for [other] a builtin value: the list is extended
    in place with the items of [other].  (For [other] a container see
    [add_container] below.) *)
Definition data_iadd (other : pyval) : M lf_list unit :=
  update_data (fun d => match py_iter other with
                        | Ok items => Ok (d ++ items)
                        | Raise e => Raise e
                        end).

Definition __add__ (self : loc) (other : pyval) : M lf_list retval :=
  validate_sequence self [other] ;;;
  data_iadd other ;;;
  ret (RObj self).

Definition __iadd__ (self : loc) (other : pyval) : M lf_list retval :=
  validate_sequence self [other] ;;;
  data_iadd other ;;;
  ret (RObj self).


(** *** Calls on heap objects *)

(** The constructor call [lf_list(...)]: a new object, initialised by
    [__init__]; when [__init__] raises, no object is left behind. *)
Definition new (args : list pyval) (kwargs : list (string * pyval)) : M heap loc :=
  fun h =>
    match __init__ args kwargs with
    | Raise e => (Raise e, h)
    | Ok o => let a := fresh (dom h) in (Ok a, <[a := o]> h)
    end.

(** A method call [self.m(...)] on the object at [self]. *)
Definition call {A} (self : loc) (m : loc -> M lf_list A) : M heap A :=
  fun h =>
    match h !! self with
    | None => (Raise (SystemError "no object at this location"), h)
    | Some o => let '(r, o') := m self o in (r, <[self := o']> h)
    end.

(** The thirteen operations that [lf_list.py] defines, as one type, and a
    run of several of them on the same object.  What the class inherits
    unchanged from [UserList] (such as [__imul__] above) is not among
    them. *)
Inductive op : Type :=
  | OpHash (frames : list string)
  | OpSetitem (index : Z) (value : pyval)
  | OpDelitem (index : Z)
  | OpAppend (value : pyval)
  | OpExtend (iterable : pyval)
  | OpInsert (index : Z) (value : pyval)
  | OpPop (index : option Z)
  | OpRemove (value : pyval)
  | OpClear
  | OpReverse
  | OpSort (args : list pyval) (kwargs : list (string * pyval))
  | OpAdd (other : pyval)
  | OpIadd (other : pyval).

Definition mutating (o : op) : bool :=
  match o with
  | OpHash _ => false
  | _ => true
  end.

Definition run_op (o : op) (self : loc) : M lf_list retval :=
  match o with
  | OpHash frames => z <- __hash__ frames self ;; ret (RVal (VInt z))
  | OpSetitem i v => __setitem__ self i v
  | OpDelitem i => __delitem__ self i
  | OpAppend v => append self v
  | OpExtend it => extend self it
  | OpInsert i v => insert self i v
  | OpPop i => pop self i
  | OpRemove v => remove self v
  | OpClear => clear self
  | OpReverse => reverse self
  | OpSort args kwargs => sort self args kwargs
  | OpAdd other => __add__ self other
  | OpIadd other => __iadd__ self other
  end.

(** The heap after a run of operations; an exception does not stop the
    run (the caller catches it). *)
Fixpoint run_ops (ops : list op) (self : loc) (h : heap) : heap :=
  match ops with
  | [] => h
  | o :: rest => run_ops rest self (call self (run_op o) h).2
  end.

(** *** [+] with a container as right operand

    For [other] an [lf_list] the statement [self.data += other] does not
    extend the list: the interpreter first asks the right operand, whose
    [UserList.__radd__] answers with a new container
    [other.__class__(self.data + other.data)], and [self.data] is rebound to
    it.  A [world] records, besides the containers, which containers have
    had their [data] rebound and to which container; for those the field
    [data] of the record is the list they no longer use.  Operations on a
    container whose [data] is rebound are not modelled. *)
Record world : Type := mk_world {
  containers : heap;
  rebound : gmap loc loc
}.

(** [validate_sequence(self, other)] for [other] a container holding
    [items], over which the diagnostics loop iterates. *)
Definition validate_container (self : loc) (items : list pyval) : M lf_list unit :=
  o <- get ;;
  (if py_truthy (_debug o) then check_items items else ret tt) ;;;
  raise_if_frozen.

(** [self + other] and [self += other] for [other] the container at
    [other]; [None] outside the modelled states. *)
Definition add_container (self other : loc) (w : world) : option (result retval * world) :=
  match containers w !! self, containers w !! other,
        rebound w !! self, rebound w !! other with
  | Some o, Some b, None, None =>
      match validate_container self (data b) o with
      | (Raise e, _) => Some (Raise e, w)
      | (Ok _, _) =>
          match __init__ [VList (data o ++ data b)] [] with
          | Raise e => Some (Raise e, w)
          | Ok created =>
              let n := fresh (dom (containers w)) in
              Some (Ok (RObj self),
                    mk_world (<[n := created]> (containers w)) (<[self := n]> (rebound w)))
          end
      end
  | _, _, _, _ => None
  end.

End Methods.

End LfList.

(* ===================================================================== *)
(** ** [lazy_freeze/decorator.py]: the class decorator                     *)
(* ===================================================================== *)

Module Decorator.
Import Py.
Local Open Scope py_scope.

Section Classes.
Context {env : Builtins}.
(** What an instance stores besides its attributes (the items of a [dict]
    subclass, for example). *)
Context {P : Type}.

(** An instance: the name of its class, its attribute dictionary, and the
    storage of its base type. *)
Record instance : Type := mk_instance {
  inst_class : string;
  inst_dict : gmap string pyval;
  inst_store : P
}.

Definition set_dict (d : gmap string pyval) (o : instance) : instance :=
  mk_instance (inst_class o) d (inst_store o).

(** A method receives [self], the positional and the keyword arguments. *)
Definition method : Type :=
  loc -> list pyval -> list (string * pyval) -> M instance retval.

(** A hash method; [frames] is what [traceback.format_stack()] yields
    inside the call. *)
Definition hash_method : Type := list string -> loc -> M instance Z.

(** The attribute [__hash__] of a class: [object.__hash__] when nothing
    defines it, [None] (as a class that defines [__eq__] alone gets it), or
    a function of the class or of a parent. *)
Inductive hash_slot : Type :=
  | HashObject
  | HashNoneAttr
  | HashDefined (f : hash_method).

(** A class: [cls_attrs] holds, for the names of the mutating special
    methods, what the class and its parents below [object] define: a
    function, or [None]. *)
Record pyclass : Type := mk_pyclass {
  cls_name : string;
  cls_hash : hash_slot;
  cls_attrs : gmap string (option method)
}.

(** What [lazy_freeze] is applied to: a class, or any other value, of
    which the type's name and the text are kept. *)
Inductive decorated : Type :=
  | DClass (c : pyclass)
  | DOther (tyname : string) (text : string).

(** [getattr(self, name)] on an instance with the default lookup, which
    finds the names used here ([hash_taken], [_hash_stack_trace]) in the
    instance dictionary. *)
Definition getattr (o : instance) (name : string) : option pyval :=
  inst_dict o !! name.

Definition hasattr (o : instance) (name : string) : bool :=
  match getattr o name with
  | Some _ => true
  | None => false
  end.

(** [object.__setattr__(self, name, value)] *)
Definition object_setattr : method :=
  fun self args kwargs =>
    match kwargs, args with
    | _ :: _, _ => raise (TypeError "wrapper __setattr__() takes no keyword arguments")
    | [], [VStr name; value] =>
        modify (fun o => set_dict (<[name := value]> (inst_dict o)) o) ;;;
        ret RNone
    | [], [name; _] =>
        raise (TypeError ("attribute name must be string, not '" +:+ type_name name +:+ "'"))
    | [], _ =>
        raise (TypeError ("expected 2 arguments, got " +:+ pretty (length args)))
    end.

(** [object.__delattr__(self, name)] *)
Definition object_delattr : method :=
  fun self args kwargs =>
    match kwargs, args with
    | _ :: _, _ => raise (TypeError "wrapper __delattr__() takes no keyword arguments")
    | [], [VStr name] =>
        o <- get ;;
        match inst_dict o !! name with
        | Some _ =>
            modify (fun o => set_dict (delete name (inst_dict o)) o) ;;;
            ret RNone
        | None =>
            raise (AttributeError ("'" +:+ inst_class o +:+ "' object has no attribute '"
                                   +:+ name +:+ "'"))
        end
    | [], [name] =>
        raise (TypeError ("attribute name must be string, not '" +:+ type_name name +:+ "'"))
    | [], _ =>
        raise (TypeError ("expected 1 argument, got " +:+ pretty (length args)))
    end.

Definition is_core (name : string) : bool :=
  String.eqb name "__setattr__" || String.eqb name "__delattr__".

(** [getattr(actual_cls, name)] for a special-method name: the class's
    entry, else what [object] provides. *)
Definition class_getattr (c : pyclass) (name : string) : option (option method) :=
  match cls_attrs c !! name with
  | Some a => Some a
  | None =>
      if String.eqb name "__setattr__" then Some (Some object_setattr)
      else if String.eqb name "__delattr__" then Some (Some object_delattr)
      else None
  end.

Definition class_hasattr (c : pyclass) (name : string) : bool :=
  match class_getattr c name with
  | Some _ => true
  | None => false
  end.

(** *** The action descriptions *)

(** A [lambda] of fixed arity applied to [*args]. *)
Definition formatter : Type := list pyval -> result string.

Definition arity_error (expected given : nat) : exn :=
  if Nat.ltb given expected then
    TypeError ("<lambda>() missing " +:+ pretty (expected - given)
               +:+ " required positional argument(s)")
  else
    TypeError ("<lambda>() takes " +:+ pretty expected +:+ " positional argument(s) but "
               +:+ pretty given +:+ " were given").

Definition lambda1 (f : pyval -> string) : formatter :=
  fun args => match args with
              | [x] => Ok (f x)
              | _ => Raise (arity_error 1 (length args))
              end.

Definition lambda2 (f : pyval -> pyval -> string) : formatter :=
  fun args => match args with
              | [x; y] => Ok (f x y)
              | _ => Raise (arity_error 2 (length args))
              end.

Definition setattr_formatter : formatter :=
  lambda2 (fun name value => "modify attribute '" +:+ py_format name +:+ "' of").
Definition delattr_formatter : formatter :=
  lambda1 (fun name => "delete attribute '" +:+ py_format name +:+ "' from").

Definition inplace_operations : list (string * formatter) :=
  [ ("__iadd__", lambda1 (fun other => "modify with in-place addition"));
    ("__isub__", lambda1 (fun other => "modify with in-place subtraction"));
    ("__imul__", lambda1 (fun other => "modify with in-place multiplication"));
    ("__itruediv__", lambda1 (fun other => "modify with in-place division"));
    ("__ifloordiv__", lambda1 (fun other => "modify with in-place floor division"));
    ("__imod__", lambda1 (fun other => "modify with in-place modulo"));
    ("__ipow__", lambda1 (fun other => "modify with in-place power"));
    ("__ilshift__", lambda1 (fun other => "modify with in-place left shift"));
    ("__irshift__", lambda1 (fun other => "modify with in-place right shift"));
    ("__iand__", lambda1 (fun other => "modify with in-place bitwise AND"));
    ("__ixor__", lambda1 (fun other => "modify with in-place bitwise XOR"));
    ("__ior__", lambda1 (fun other => "modify with in-place bitwise OR"));
    ("__imatmul__", lambda1 (fun other => "modify with in-place matrix multiplication")) ].

Definition item_operations : list (string * formatter) :=
  [ ("__setitem__", lambda2 (fun key value => "modify item '" +:+ py_format key +:+ "' of"));
    ("__delitem__", lambda1 (fun key => "delete item '" +:+ py_format key +:+ "' from")) ].

Definition optional_operations : list (string * formatter) :=
  item_operations ++ inplace_operations.

(** *** The body of [wrap] *)

Section Wrap.
(** The options of [lazy_freeze] and the class being decorated. *)
Variable debug : bool.
Variable protected_attrs : option (list string).
Variable actual_cls : pyclass.

(** [if protected_attrs:] *)
Definition protecting_some : bool :=
  match protected_attrs with
  | Some (_ :: _) => true
  | Some [] | None => false
  end.

(** [attr_name in protected_attrs], the list holding attribute names. *)
Definition in_protected (attr_name : pyval) : bool :=
  match attr_name with
  | VStr s => bool_decide (s ∈ default [] protected_attrs)
  | _ => false
  end.

(** The dictionary [mutating_methods]: the two core entries, then one
    entry for each optional operation the class has. *)
Definition core_methods : gmap string (option method * formatter) :=
  <["__delattr__" := (Some object_delattr, delattr_formatter)]>
    (<["__setattr__" := (Some object_setattr, setattr_formatter)]> ∅).

Definition add_optional (mm : gmap string (option method * formatter))
    (entry : string * formatter) : gmap string (option method * formatter) :=
  match class_getattr actual_cls entry.1 with
  | Some original_method => <[entry.1 := (original_method, entry.2)]> mm
  | None => mm
  end.

(** The second loop: a core entry takes the class's own implementation. *)
Definition update_core (mm : gmap string (option method * formatter))
  : gmap string (option method * formatter) :=
  map_imap (fun method_name entry =>
              if is_core method_name then
                match class_getattr actual_cls method_name with
                | Some m => Some (m, entry.2)
                | None => Some entry
                end
              else Some entry) mm.

Definition mutating_methods : gmap string (option method * formatter) :=
  update_core (foldl add_optional core_methods optional_operations).

(** The replacement [__hash__]; [original_hash] is [None] when the class's
    attribute is. *)
Definition hash_wrapper (original_hash : option hash_method) : hash_method :=
  fun frames self =>
    hash_value <- match original_hash with
                  | Some f => f frames self
                  | None => raise (TypeError "'NoneType' object is not callable")
                  end ;;
    modify (fun o => set_dict (<["hash_taken" := VBool true]> (inst_dict o)) o) ;;;
    (if debug then
       let stack_trace := String.concat "" (removelast frames) in
       modify (fun o => set_dict (<["_hash_stack_trace" := VStr stack_trace]> (inst_dict o)) o)
     else ret tt) ;;;
    ret hash_value.

Definition newline : string := String (Ascii.ascii_of_nat 10) EmptyString.

Definition get_error_message (o : instance) (operation : string) : string :=
  match (if debug then getattr o "_hash_stack_trace" else None) with
  | Some trace =>
      "Cannot " +:+ operation +:+ " " +:+ cls_name actual_cls
      +:+ " after its hash has been taken." +:+ newline
      +:+ "Hash was calculated at:" +:+ newline +:+ py_format trace
  | None =>
      "Cannot " +:+ operation +:+ " " +:+ cls_name actual_cls
      +:+ " after its hash has been taken"
  end.

(** [hasattr(self, 'hash_taken') and self.hash_taken] *)
Definition frozen (o : instance) : bool :=
  match getattr o "hash_taken" with
  | Some v => py_truthy v
  | None => false
  end.

(** Calling [original], which may be [None]. *)
Definition call_original (original : option method) : method :=
  match original with
  | Some f => f
  | None => fun _ _ _ => raise (TypeError "'NoneType' object is not callable")
  end.

Definition protected_method (method_name : string) (original : option method)
    (format_error : formatter) : method :=
  fun self args kwargs =>
    o <- get ;;
    if frozen o then
      if protecting_some
         && (String.eqb method_name "__setattr__" || String.eqb method_name "__delattr__")
         && negb (in_protected (default VNone (head args)))
      then call_original original self args kwargs
      else
        operation <- lift (format_error args) ;;
        raise (TypeError (get_error_message o operation))
    else
      match original with
      | Some f => f self args kwargs
      | None =>
          if String.eqb method_name "__setitem__" || String.eqb method_name "__delitem__"
          then raise (TypeError (cls_name actual_cls +:+ " does not support "
                                 +:+ String.substring 2 (String.length method_name - 4) method_name
                                 +:+ " operations"))
          else ret RNone
      end.

(** The loop that installs the guards: an entry without an original is
    skipped unless it is a core one. *)
Definition guards : gmap string (option method) :=
  map_imap (fun method_name entry =>
              match entry.1 with
              | None =>
                  if is_core method_name
                  then Some (Some (protected_method method_name entry.1 entry.2))
                  else None
              | Some _ => Some (Some (protected_method method_name entry.1 entry.2))
              end) mutating_methods.

Definition augmented (original_hash : option hash_method) : pyclass :=
  {| cls_name := cls_name actual_cls;
     cls_hash := HashDefined (hash_wrapper original_hash);
     cls_attrs := guards ∪ cls_attrs actual_cls |}.

End Wrap.

(** The messages of the two registration errors. *)
Definition not_a_class_message (tyname text : string) : string :=
  "@lazy_freeze can only be applied to classes, not " +:+ tyname
  +:+ ". Got " +:+ text +:+ " which is a " +:+ tyname +:+ ", not a class.".

Definition missing_hash_message (name : string) : string :=
  "Class '" +:+ name
  +:+ "' must implement a custom __hash__ method to use the @lazy_freeze decorator. "
  +:+ "Implement __hash__ to define the object's hash value, which should be consistent with equality (__eq__).".

Definition wrap (debug : bool) (protected_attrs : option (list string))
    (actual_cls : decorated) : result pyclass :=
  match actual_cls with
  | DOther tyname text => Raise (TypeError (not_a_class_message tyname text))
  | DClass c =>
      match cls_hash c with
      | HashObject => Raise (AssertionError (missing_hash_message (cls_name c)))
      | HashNoneAttr => Ok (augmented debug protected_attrs c None)
      | HashDefined f => Ok (augmented debug protected_attrs c (Some f))
      end
  end.

(** [lazy_freeze] with the optional positional [cls] and the keyword
    options [debug] and [protected_attrs]: without [cls] the configured
    [wrap] is returned, with it [wrap(cls)]. *)
Definition lazy_freeze (cls : option decorated) (debug : bool)
    (protected_attrs : option (list string))
  : (decorated -> result pyclass) + result pyclass :=
  match cls with
  | None => inl (wrap debug protected_attrs)
  | Some c => inr (wrap debug protected_attrs c)
  end.

(** *** What the interpreter calls on an instance of class [c] *)

(** [hash(obj)] *)
Definition hash_call (c : pyclass) (frames : list string) (self : loc) : M instance Z :=
  match cls_hash c with
  | HashDefined f => f frames self
  | HashNoneAttr =>
      raise (TypeError ("unhashable type: '" +:+ cls_name c +:+ "'"))
  | HashObject => ret (Z.pos self)
  end.

(** An explicit call [type(obj).name(obj, ...)], which is also what
    [obj.attr = v], [del obj.attr] and, for a class that has the in-place
    method, [obj op= other] perform. *)
Definition call_method (c : pyclass) (name : string) : method :=
  fun self args kwargs =>
    match class_getattr c name with
    | Some m => call_original m self args kwargs
    | None =>
        raise (AttributeError ("type object '" +:+ cls_name c +:+ "' has no attribute '"
                               +:+ name +:+ "'"))
    end.

(** [obj.name = value] and [del obj.name] *)
Definition setattr_stmt (c : pyclass) (self : loc) (name : string) (value : pyval)
  : M instance retval :=
  call_method c "__setattr__" self [VStr name; value] [].

Definition delattr_stmt (c : pyclass) (self : loc) (name : string) : M instance retval :=
  call_method c "__delattr__" self [VStr name] [].

(** [obj[key] = value] *)
Definition setitem_stmt (c : pyclass) (self : loc) (key value : pyval) : M instance retval :=
  match class_getattr c "__setitem__" with
  | Some m => call_original m self [key; value] []
  | None =>
      raise (TypeError ("'" +:+ cls_name c +:+ "' object does not support item assignment"))
  end.

(** [del obj[key]] *)
Definition delitem_stmt (c : pyclass) (self : loc) (key : pyval) : M instance retval :=
  match class_getattr c "__delitem__" with
  | Some m => call_original m self [key] []
  | None =>
      raise (TypeError ("'" +:+ cls_name c +:+ "' object doesn't support item deletion"))
  end.

End Classes.

Arguments instance : clear implicits.
Arguments method : clear implicits.
Arguments hash_method : clear implicits.
Arguments hash_slot : clear implicits.
Arguments pyclass : clear implicits.
Arguments decorated : clear implicits.

End Decorator.

(* ===================================================================== *)
(** ** Example classes, after [examples.py]                                *)
(* ===================================================================== *)

Module Examples.
Import Py Decorator.
Local Open Scope py_scope.
#[local] Existing Instance plain_builtins.

(** Instances of the example classes store items as an association list. *)
Abbreviation items := (list (pyval * pyval)).

Definition set_store (st : items) (o : instance items) : instance items :=
  mk_instance (inst_class o) (inst_dict o) st.

(** [Person], hashed on [(name, age)]; [DebugPerson] and
    [PartiallyProtectedPerson] are the same class registered with other
    options. *)
Definition person_hash : hash_method items :=
  fun _ self =>
    o <- get ;;
    match getattr o "name", getattr o "age" with
    | Some n, Some a => lift (py_hash_tuple [n; a])
    | _, _ => raise (AttributeError "'Person' object has no attribute 'name'")
    end.

Definition Person : pyclass items :=
  mk_pyclass "Person" (HashDefined person_hash) ∅.

(** [NoHashClass]: nothing but [__init__]. *)
Definition NoHashClass : pyclass items :=
  mk_pyclass "NoHashClass" HashObject ∅.

(** [Counter], with [__iadd__] adding to [self.value] and returning
    [self]. *)
Definition counter_hash : hash_method items :=
  fun _ self =>
    o <- get ;;
    match getattr o "value" with
    | Some v => lift (py_hash_tuple [v])
    | None => raise (AttributeError "'Counter' object has no attribute 'value'")
    end.

Definition counter_iadd : method items :=
  fun self args kwargs =>
    o <- get ;;
    match args, getattr o "value" with
    | [VInt n], Some (VInt v) =>
        modify (fun o => set_dict (<["value" := VInt (v + n)]> (inst_dict o)) o) ;;;
        ret (RObj self)
    | _, _ => raise (TypeError "unsupported operand type(s) for +=")
    end.

Definition Counter : pyclass items :=
  mk_pyclass "Counter" (HashDefined counter_hash) {[ "__iadd__" := Some counter_iadd ]}.

(** A dict-like class in the manner of [CustomDict]: item assignment and
    deletion act on the stored items, the hash is taken over them. *)
Definition dict_hash : hash_method items :=
  fun _ self =>
    o <- get ;;
    lift (py_hash_tuple ((fun kv => VTuple [kv.1; kv.2]) <$> inst_store o)).

Definition dict_setitem : method items :=
  fun self args kwargs =>
    match args with
    | [k; v] =>
        modify (fun o => set_store
                  ((k, v) :: filter (fun kv => py_eq kv.1 k = false) (inst_store o)) o) ;;;
        ret RNone
    | _ => raise (TypeError "expected 2 arguments")
    end.

Definition dict_delitem : method items :=
  fun self args kwargs =>
    match args with
    | [k] =>
        modify (fun o => set_store
                  (filter (fun kv => py_eq kv.1 k = false) (inst_store o)) o) ;;;
        ret RNone
    | _ => raise (TypeError "expected 1 argument")
    end.

Definition DictLike : pyclass items :=
  mk_pyclass "DictLike" (HashDefined dict_hash)
    {[ "__setitem__" := Some dict_setitem; "__delitem__" := Some dict_delitem ]}.

(** A few instances. *)
Definition alice : instance items :=
  mk_instance "Person" {[ "name" := VStr "Alice"; "age" := VInt 30 ]} [].

Definition frozen_alice : instance items :=
  mk_instance "Person"
    {[ "name" := VStr "Alice"; "age" := VInt 30; "hash_taken" := VBool true ]} [].

Definition frozen_counter : instance items :=
  mk_instance "Counter" {[ "value" := VInt 15; "hash_taken" := VBool true ]} [].

Definition frozen_dict : instance items :=
  mk_instance "DictLike" {[ "hash_taken" := VBool true ]} [(VStr "a", VInt 1)].

(** [lazy_freeze(debug=True)(Person)], the class [DebugPerson]. *)
Definition DebugPerson : pyclass items :=
  augmented true None Person (Some person_hash).

(** Containers: the one of the example, a frozen one, and one with
    diagnostics switched on (by assigning [_debug] on the instance). *)
Definition one_two_three : LfList.lf_list :=
  LfList.mk_lf_list [VInt 1; VInt 2; VInt 3] false (VBool false) None.

Definition frozen_one_two : LfList.lf_list :=
  LfList.mk_lf_list [VInt 1; VInt 2] true (VBool false) None.

Definition diagnosing_one_two : LfList.lf_list :=
  LfList.mk_lf_list [VInt 1; VInt 2] false (VBool true) None.

End Examples.

(* ===================================================================== *)
(** ** Properties of [lf_list]                                             *)
(* ===================================================================== *)

Import Py.

Section LfListFacts.
Import LfList.
Context {env : Builtins}.
Implicit Types (o : lf_list) (h : heap) (self a : loc) (v value : pyval).

Lemma hasattr_hash_always v : hasattr_hash v = true.
Proof. by destruct v. Qed.

(** An index between [-len] and [len] is a [Py_ssize_t]. *)
Lemma fits_ssize_position (len : nat) (i : Z) :
  (- Z.of_nat len <= i <= Z.of_nat len)%Z -> fits_ssize len i = true.
Proof.
  intros [H1 H2]. unfold fits_ssize. apply orb_true_iff. right.
  apply andb_true_iff. split; by apply Z.leb_le.
Qed.

Lemma set_data_same o : set_data (data o) o = o.
Proof. by destruct o. Qed.

Lemma raise_if_frozen_unfrozen o :
  hash_taken o = false -> raise_if_frozen o = (Ok tt, o).
Proof. intros Hf. unfold raise_if_frozen, bind, get. simpl. by rewrite Hf. Qed.

Lemma raise_if_frozen_frozen o :
  hash_taken o = true -> raise_if_frozen o = (Raise (frozen_error o), o).
Proof.
  intros Hf. unfold raise_if_frozen, bind, get. simpl. by rewrite Hf.
Qed.

Lemma validate_passes_check self value o :
  validate self value o = raise_if_frozen o.
Proof.
  unfold validate, bind, get. simpl.
  destruct (py_truthy (_debug o)); [|done].
  destruct value; simpl; done.
Qed.

Lemma check_items_ok items o : check_items items o = (Ok tt, o).
Proof.
  induction items as [|x r IH]; [done|].
  simpl. by rewrite hasattr_hash_always.
Qed.

Lemma validate_sequence_iterable self sequence items o :
  py_iter sequence = Ok items ->
  validate_sequence self [sequence] o = raise_if_frozen o.
Proof.
  intros Hit. unfold validate_sequence, bind, get, lift. simpl.
  destruct (py_truthy (_debug o)); [|done].
  rewrite Hit. by rewrite check_items_ok.
Qed.

Lemma call_at {A} self (m : loc -> M lf_list A) h o :
  h !! self = Some o ->
  call self m h = ((m self o).1, <[self := (m self o).2]> h).
Proof. intros Hl. unfold call. rewrite Hl. by destruct (m self o). Qed.

Lemma validate_sequence_frozen self sequence o :
  hash_taken o = true ->
  exists e, validate_sequence self [sequence] o = (Raise e, o).
Proof.
  intros Hf. unfold validate_sequence, bind, get, lift. simpl.
  destruct (py_truthy (_debug o)).
  - destruct (py_iter sequence) as [items|e]; [|eauto].
    rewrite check_items_ok. simpl. rewrite raise_if_frozen_frozen by done. eauto.
  - simpl. rewrite raise_if_frozen_frozen by done. eauto.
Qed.

(** A frozen container rejects every mutating operation and keeps its
    fields. *)
Lemma frozen_rejects (p : op) self o :
  hash_taken o = true -> mutating p = true ->
  exists e, run_op p self o = (Raise e, o).
Proof.
  intros Hf Hm.
  destruct p; try discriminate Hm; simpl;
    unfold __setitem__, __delitem__, append, extend, insert, pop, remove, clear,
      reverse, sort, __add__, __iadd__;
    unfold bind at 1;
    rewrite ?validate_passes_check, ?raise_if_frozen_frozen by done;
    eauto.
  all: destruct (validate_sequence_frozen self other o Hf) as [e ->]; eauto.
Qed.

(** Hashing a frozen container whose diagnostics are off changes nothing. *)
Lemma hash_frozen_plain frames self o :
  hash_taken o = true -> py_truthy (_debug o) = false ->
  (__hash__ frames self o).2 = o.
Proof.
  intros Hf Hd. unfold __hash__, bind, modify, get, lift, ret. simpl.
  rewrite Hd. simpl. destruct o; simpl in *. by subst.
Qed.

Lemma run_op_frozen_plain (p : op) self o :
  hash_taken o = true -> py_truthy (_debug o) = false ->
  (run_op p self o).2 = o.
Proof.
  intros Hf Hd. destruct (mutating p) eqn:Hm.
  - destruct (frozen_rejects p self o Hf Hm) as [e ->]. done.
  - destruct p; try discriminate Hm. simpl. unfold bind.
    pose proof (hash_frozen_plain frames self o Hf Hd) as Hh.
    destruct (__hash__ frames self o) as [[z|e] o']; simpl in *; by subst.
Qed.

Lemma run_ops_frozen_plain ops self o h :
  hash_taken o = true -> py_truthy (_debug o) = false ->
  run_ops ops self (<[self := o]> h) = <[self := o]> h.
Proof.
  intros Hf Hd. induction ops as [|p ops IH]; [done|].
  simpl. rewrite (call_at self _ _ o) by apply lookup_insert_eq.
  simpl. rewrite run_op_frozen_plain by done.
  by rewrite insert_insert_eq.
Qed.

(** Claim C1. The container built from [[1, 2, 3]] with diagnostics off:
    [append(4)] succeeds and the elements are [[1, 2, 3, 4]]; taking the
    hash freezes it; [append(5)] then raises the mutation-rejected error
    and the elements are still [[1, 2, 3, 4]]; and it stays so whatever
    operations are tried afterwards. *)
Theorem lf_list_example_freezes (h : heap) (frames : list string) :
  let a := fresh (dom h) in
  let l3 := mk_lf_list [VInt 1; VInt 2; VInt 3] false (VBool false) None in
  let l4 := mk_lf_list [VInt 1; VInt 2; VInt 3; VInt 4] false (VBool false) None in
  let l4f := mk_lf_list [VInt 1; VInt 2; VInt 3; VInt 4] true (VBool false) None in
  new [VList [VInt 1; VInt 2; VInt 3]] [] h = (Ok a, <[a := l3]> h)
  /\ call a (fun self => append self (VInt 4)) (<[a := l3]> h)
     = (Ok (RObj a), <[a := l4]> h)
  /\ call a (__hash__ frames) (<[a := l4]> h)
     = (Ok (tuple_hash [VInt 1; VInt 2; VInt 3; VInt 4]), <[a := l4f]> h)
  /\ call a (fun self => append self (VInt 5)) (<[a := l4f]> h)
     = (Raise (TypeError "Cannot modify lf_list after hash is taken"), <[a := l4f]> h)
  /\ forall ops, run_ops ops a (<[a := l4f]> h) = <[a := l4f]> h.
Proof.
  intros a l3 l4 l4f. repeat split.
  - rewrite (call_at a _ _ l3) by apply lookup_insert_eq.
    simpl. by rewrite insert_insert_eq.
  - rewrite (call_at a _ _ l4) by apply lookup_insert_eq.
    simpl. by rewrite insert_insert_eq.
  - rewrite (call_at a _ _ l4f) by apply lookup_insert_eq.
    simpl. by rewrite insert_insert_eq.
  - intros ops. by apply run_ops_frozen_plain.
Qed.

(** Claim C7. What the constructor does when it is given [debug=True]
    together with the initial elements, positionally or by keyword: the
    call raises, the base class accepting no such keyword; and a
    constructor call that succeeds leaves diagnostics off. *)
Theorem lf_list_debug_keyword_raises (h : heap) (items : list pyval) (flag : pyval) :
  new [VList items] [("debug", flag)] h
  = (Raise (TypeError "UserList.__init__() got an unexpected keyword argument 'debug'"), h)
  /\ new [] [("initlist", VList items); ("debug", flag)] h
     = (Raise (TypeError "UserList.__init__() got an unexpected keyword argument 'debug'"), h)
  /\ forall args kwargs,
       match __init__ args kwargs with
       | Ok o => _debug o = VBool false
       | Raise _ => True
       end.
Proof.
  split; [done|]. split; [done|].
  intros args kwargs. unfold __init__, UserList_init, bind_initlist.
  assert (Hkw : forall slot r, bind_initlist_kw slot kwargs = Ok r ->
                kwargs_get "debug" (VBool false) kwargs = VBool false).
  { induction kwargs as [|[k x] kw IH]; intros slot r; [done|].
    simpl. destruct (String.eqb k "initlist") eqn:Hk; [|done].
    apply String.eqb_eq in Hk. subst k. simpl.
    destruct slot; [done|]. apply IH. }
  destruct (bind_initlist_kw (head args) kwargs) as [slot|e] eqn:Hb; [|done].
  specialize (Hkw _ _ Hb).
  destruct (Nat.ltb 1 (length args)); [done|].
  destruct (default VNone slot); simpl;
    repeat match goal with
           | |- context [match ?x with _ => _ end] => destruct x
           end;
    done.
Qed.

(** Claim C8. What a container in diagnostics mode does when an element
    without a hash computation (a dict, a list) is inserted before any
    freeze: the check looks for the attribute [__hash__], which such values
    have too, so the insertion goes through and the element is stored. *)
Theorem lf_list_debug_accepts_unhashable
    (self : loc) (d : list pyval) (stack : option (list string))
    (kvs : list (pyval * pyval)) (items : list pyval) :
  let o := mk_lf_list d false (VBool true) stack in
  hashable (VDict kvs) = false
  /\ hashable (VList items) = false
  /\ append self (VDict kvs) o = (Ok (RObj self), set_data (d ++ [VDict kvs]) o)
  /\ append self (VList items) o = (Ok (RObj self), set_data (d ++ [VList items]) o)
  /\ insert self 0 (VDict kvs) o = (Ok (RObj self), set_data (VDict kvs :: d) o)
  /\ __add__ self (VList [VDict kvs]) o = (Ok (RObj self), set_data (d ++ [VDict kvs]) o).
Proof.
  intros o. split; [done|]. split; [done|]. split; [done|]. split; [done|].
  split; [|done].
  unfold insert. unfold bind at 1.
  rewrite validate_passes_check, raise_if_frozen_unfrozen by done.
  unfold update_data, bind, get, lift, modify, ret, list_insert. cbn [data o].
  rewrite fits_ssize_position by lia.
  unfold list_insert_at. simpl.
  by destruct (Z.of_nat (length d)).
Qed.

Lemma validate_unfrozen self value o :
  hash_taken o = false -> validate self value o = (Ok tt, o).
Proof. intros Hf. by rewrite validate_passes_check, raise_if_frozen_unfrozen. Qed.

(** How [+] on the container evaluates, frozen or not.  A right operand
    that cannot be iterated is reported by the diagnostics loop, or else by
    [self.data += other] once the frozen check has passed. *)
Lemma add_outcome self other o :
  __add__ self other o
  = match py_iter other with
    | Ok items =>
        if hash_taken o then (Raise (frozen_error o), o)
        else (Ok (RObj self), set_data (data o ++ items) o)
    | Raise e =>
        if hash_taken o && negb (py_truthy (_debug o)) then (Raise (frozen_error o), o)
        else (Raise e, o)
    end.
Proof.
  unfold __add__, data_iadd, update_data. unfold bind at 1.
  destruct (py_iter other) as [items|e] eqn:Hit.
  - rewrite (validate_sequence_iterable _ _ items) by done.
    destruct (hash_taken o) eqn:Hf.
    + by rewrite raise_if_frozen_frozen.
    + rewrite raise_if_frozen_unfrozen by done.
      unfold bind, get, lift, modify, ret. simpl. by rewrite ?Hit.
  - unfold validate_sequence. unfold bind at 1 2. unfold get, lift.
    destruct (py_truthy (_debug o)) eqn:Hd; simpl.
    + unfold bind. rewrite ?Hit. by rewrite andb_false_r.
    + rewrite andb_true_r. destruct (hash_taken o) eqn:Hf.
      * rewrite raise_if_frozen_frozen by done. done.
      * rewrite raise_if_frozen_unfrozen by done.
        unfold bind, get, lift. simpl. by rewrite ?Hit.
Qed.

Lemma iadd_is_add self other o : __iadd__ self other o = __add__ self other o.
Proof. done. Qed.

(** Claim C9, as the code has it. On an unfrozen container [append],
    [insert] (for an index that is a [Py_ssize_t]), [clear], [reverse], and
    [+] and [+=] with a builtin iterable perform their mutation, the stored
    elements being the ones written out below, and return the container
    itself; so do [remove] when the value occurs and [sort] when the list's
    sort succeeds; [pop] returns the removed element; indexed assignment
    and deletion perform their mutation for an index in range and return
    [None].  Where the builtin list raises, its error is passed on and the
    container is unchanged. *)
Theorem lf_list_unfrozen_operations (h : heap) (a : loc) (o : lf_list)
    (Hobj : h !! a = Some o) (Hunfrozen : hash_taken o = false) :
  let holding := fun d : list pyval => mk_lf_list d false (_debug o) (_hash_stack o) in
  (forall v, call a (fun self => append self v) h
             = (Ok (RObj a), <[a := holding (data o ++ [v])]> h))
  /\ (forall i v, call a (fun self => insert self i v) h
                 = if fits_ssize (length (data o)) i
                   then (Ok (RObj a), <[a := holding (list_insert_at i v (data o))]> h)
                   else (Raise (OverflowError
                                  "Python int too large to convert to C ssize_t"), h))
  /\ call a clear h = (Ok (RObj a), <[a := holding []]> h)
  /\ call a reverse h = (Ok (RObj a), <[a := holding (rev (data o))]> h)
  /\ (forall other items, py_iter other = Ok items ->
        call a (fun self => __add__ self other) h
        = (Ok (RObj a), <[a := holding (data o ++ items)]> h)
        /\ call a (fun self => __iadd__ self other) h
           = (Ok (RObj a), <[a := holding (data o ++ items)]> h))
  /\ (forall v, call a (fun self => remove self v) h
               = match list_remove_first v (data o) with
                 | Some d => (Ok (RObj a), <[a := holding d]> h)
                 | None => (Raise (ValueError "list.remove(x): x not in list"), h)
                 end)
  /\ (forall args kwargs, call a (fun self => sort self args kwargs) h
                         = match list_sort args kwargs (data o) with
                           | (Ok _, d) => (Ok (RObj a), <[a := holding d]> h)
                           | (Raise e, d) => (Raise e, <[a := holding d]> h)
                           end)
  /\ (forall i, call a (fun self => pop self i) h
               = match list_pop (default (-1)%Z i) (data o) with
                 | Ok (x, d) => (Ok (RVal x), <[a := holding d]> h)
                 | Raise e => (Raise e, h)
                 end)
  /\ (forall i v, call a (fun self => __setitem__ self i v) h
                 = match list_setitem i v (data o) with
                   | Ok d => (Ok RNone, <[a := holding d]> h)
                   | Raise e => (Raise e, h)
                   end)
  /\ (forall i, call a (fun self => __delitem__ self i) h
               = match list_delitem i (data o) with
                 | Ok d => (Ok RNone, <[a := holding d]> h)
                 | Raise e => (Raise e, h)
                 end).
Proof.
  intros holding.
  assert (Hsame : <[a := o]> h = h) by by apply insert_id.
  assert (Hhold : forall d, set_data d o = holding d).
  { intros d. subst holding. unfold set_data. simpl. by rewrite Hunfrozen. }
  pose proof (fun d => eq_sym (Hhold d)) as Hback.
  assert (Hcall : forall (m : loc -> M lf_list retval) r o',
             m a o = (r, o') -> call a m h = (r, <[a := o']> h)).
  { intros m r o' Hm. rewrite (call_at a _ h o) by done. by rewrite Hm. }
  repeat apply conj; intros.
  - apply Hcall. unfold append, update_data, bind.
    rewrite validate_unfrozen by done. simpl. rewrite !Hback. done.
  - destruct (fits_ssize (length (data o)) i) eqn:Hfits.
    + apply Hcall. unfold insert, update_data, list_insert, bind.
      rewrite validate_unfrozen by done. simpl. rewrite Hfits, !Hback. done.
    + rewrite <- Hsame at 2. apply Hcall. unfold insert, update_data, list_insert, bind.
      rewrite validate_unfrozen by done. simpl. by rewrite Hfits.
  - apply Hcall. unfold clear, update_data, bind.
    rewrite validate_unfrozen by done. simpl. rewrite !Hback. done.
  - apply Hcall. unfold reverse, update_data, bind.
    rewrite validate_unfrozen by done. simpl. rewrite !Hback. done.
  - rename select (py_iter _ = _) into Hit. split; apply Hcall.
    + rewrite add_outcome, Hit, Hunfrozen, !Hback. done.
    + rewrite iadd_is_add, add_outcome, Hit, Hunfrozen, !Hback. done.
  - destruct (list_remove_first v (data o)) as [d|] eqn:Hr.
    + apply Hcall. unfold remove, update_data, list_remove, bind.
      rewrite validate_unfrozen by done. simpl. rewrite Hr, !Hback. done.
    + rewrite <- Hsame at 2. apply Hcall.
      unfold remove, update_data, list_remove, bind.
      rewrite validate_unfrozen by done. simpl. by rewrite Hr.
  - destruct (list_sort args kwargs (data o)) as [[[]|e] d] eqn:Hs.
    + apply Hcall. unfold sort, bind.
      rewrite validate_unfrozen by done. simpl. rewrite Hs, !Hback. done.
    + apply Hcall. unfold sort, bind.
      rewrite validate_unfrozen by done. simpl. rewrite Hs, !Hback. done.
  - destruct (list_pop (default (-1)%Z i) (data o)) as [[x d]|e] eqn:Hp.
    + apply Hcall. unfold pop, bind.
      rewrite validate_unfrozen by done. simpl. rewrite Hp, !Hback. done.
    + rewrite <- Hsame at 2. apply Hcall. unfold pop, bind.
      rewrite validate_unfrozen by done. simpl. by rewrite Hp.
  - destruct (list_setitem i v (data o)) as [d|e] eqn:Hs.
    + apply Hcall. unfold __setitem__, update_data, bind.
      rewrite validate_unfrozen by done. simpl. rewrite Hs, !Hback. done.
    + rewrite <- Hsame at 2. apply Hcall. unfold __setitem__, update_data, bind.
      rewrite validate_unfrozen by done. simpl. by rewrite Hs.
  - destruct (list_delitem i (data o)) as [d|e] eqn:Hs.
    + apply Hcall. unfold __delitem__, update_data, bind.
      rewrite validate_unfrozen by done. simpl. rewrite Hs, !Hback. done.
    + rewrite <- Hsame at 2. apply Hcall. unfold __delitem__, update_data, bind.
      rewrite validate_unfrozen by done. simpl. by rewrite Hs.
Qed.

(** Claim C10, as the code has it. On an unfrozen [a], [a + b] for [b] a
    builtin iterable appends the items of [b] to the storage of [a] in
    place and returns [a] itself, creating nothing; for [b] itself a
    container, [a] is returned as well, but a new container holding the
    items of [a] followed by those of [b] is created and the storage of [a]
    is rebound to it, the list of [a] staying as it was.  On a frozen [a]
    either form raises the mutation-rejected error and changes nothing. *)
Theorem lf_list_add_extends_or_rebinds
    (w : world) (a b : loc) (o ob : lf_list) (other : pyval) (items : list pyval)
    (Hleft : containers w !! a = Some o) (Hright : containers w !! b = Some ob)
    (Hlist_left : rebound w !! a = None) (Hlist_right : rebound w !! b = None)
    (Hiter : py_iter other = Ok items) :
  let n := fresh (dom (containers w)) in
  call a (fun self => __add__ self other) (containers w)
  = (if hash_taken o then (Raise (frozen_error o), containers w)
     else (Ok (RObj a),
           <[a := mk_lf_list (data o ++ items) false (_debug o) (_hash_stack o)]>
             (containers w)))
  /\ dom (call a (fun self => __add__ self other) (containers w)).2 = dom (containers w)
  /\ (n ∉ dom (containers w))
  /\ add_container a b w
     = Some (if hash_taken o then (Raise (frozen_error o), w)
             else (Ok (RObj a),
                   mk_world
                     (<[n := mk_lf_list (data o ++ data ob) false (VBool false) None]>
                        (containers w))
                     (<[a := n]> (rebound w)))).
Proof.
  intros n.
  assert (Hsame : <[a := o]> (containers w) = containers w) by by apply insert_id.
  assert (Hdom : forall o', dom (<[a := o']> (containers w)) = dom (containers w)).
  { intros o'. apply dom_insert_lookup_L. eauto. }
  assert (Hcall : call a (fun self => __add__ self other) (containers w)
                  = (if hash_taken o then (Raise (frozen_error o), containers w)
                     else (Ok (RObj a),
                           <[a := mk_lf_list (data o ++ items) false (_debug o)
                                    (_hash_stack o)]> (containers w)))).
  { rewrite (call_at a _ _ o) by done. rewrite add_outcome, Hiter.
    destruct (hash_taken o) eqn:Hf; simpl; [by rewrite Hsame|].
    unfold set_data. by rewrite Hf. }
  split; [done|]. split; [|split].
  - rewrite Hcall. destruct (hash_taken o); simpl; [done|apply Hdom].
  - apply is_fresh.
  - unfold add_container. rewrite Hleft, Hright, Hlist_left, Hlist_right.
    unfold validate_container, bind, get. simpl.
    assert (Hcheck : (if py_truthy (_debug o) then check_items (data ob) else ret tt) o
                     = (Ok tt, o)).
    { destruct (py_truthy (_debug o)); [apply check_items_ok|done]. }
    rewrite Hcheck. destruct (hash_taken o) eqn:Hf.
    + by rewrite raise_if_frozen_frozen.
    + by rewrite raise_if_frozen_unfrozen.
Qed.

End LfListFacts.

(* ===================================================================== *)
(** ** Properties of the decorator                                         *)
(* ===================================================================== *)

Section DecoratorFacts.
Import Decorator.
Context {env : Builtins} {P : Type}.
Implicit Types (c : pyclass P) (o : instance P) (self : loc) (name : string).

Lemma optional_names_nodup : NoDup (@optional_operations env).*1.
Proof. apply (bool_decide_unpack _). by vm_compute. Qed.

(** The first loop of [wrap]: an optional operation the class has gets an
    entry with the class's implementation; nothing else changes. *)
Lemma lookup_add_optional c (ops : list (string * formatter))
    (mm : gmap string (option (method P) * formatter)) name :
  NoDup ops.*1 ->
  foldl (add_optional c) mm ops !! name
  = match (list_to_map ops : gmap string formatter) !! name, class_getattr c name with
    | Some fmt, Some m => Some (m, fmt)
    | _, _ => mm !! name
    end.
Proof.
  revert mm. induction ops as [|[k f] r IH]; intros mm Hnd.
  - simpl. by rewrite lookup_empty.
  - simpl in *. apply NoDup_cons in Hnd as [Hk Hnd]. rewrite IH by done.
    destruct (decide (k = name)) as [->|Hne].
    + rewrite (not_elem_of_list_to_map_1 _ _ Hk), lookup_insert_eq.
      unfold add_optional. simpl.
      destruct (class_getattr c name); [by rewrite lookup_insert_eq|done].
    + assert (Hstep : add_optional c mm (k, f) !! name = mm !! name).
      { unfold add_optional. simpl.
        destruct (class_getattr c k); [by rewrite lookup_insert_ne|done]. }
      by rewrite lookup_insert_ne, Hstep.
Qed.

Lemma optional_entry name fmt :
  (name, fmt) ∈ @optional_operations env ->
  (list_to_map optional_operations : gmap string formatter) !! name = Some fmt
  /\ is_core name = false.
Proof.
  intros Hin. split.
  - apply elem_of_list_to_map_1; [apply optional_names_nodup|done].
  - unfold optional_operations, item_operations, inplace_operations in Hin. simpl in Hin.
    repeat (apply elem_of_cons in Hin as [Hin|Hin]; [by simplify_eq|]).
    by apply elem_of_nil in Hin.
Qed.

Lemma core_methods_not_core name :
  is_core name = false -> (@core_methods env P) !! name = None.
Proof.
  unfold is_core, core_methods. intros Hc.
  apply orb_false_iff in Hc as [H1 H2].
  apply String.eqb_neq in H1, H2.
  by rewrite !lookup_insert_ne, lookup_empty.
Qed.

(** The entry of [mutating_methods] for an optional operation. *)
Lemma mutating_methods_optional c name fmt :
  (name, fmt) ∈ @optional_operations env ->
  mutating_methods c !! name
  = match class_getattr c name with
    | Some m => Some (m, fmt)
    | None => None
    end.
Proof.
  intros Hin. destruct (optional_entry name fmt Hin) as [Hl Hc].
  unfold mutating_methods, update_core.
  rewrite map_lookup_imap, lookup_add_optional by apply optional_names_nodup.
  rewrite Hl, core_methods_not_core by done.
  destruct (class_getattr c name); simpl; by rewrite ?Hc.
Qed.

(** The entries of [mutating_methods] for the two core operations. *)
Lemma mutating_methods_core c name fmt :
  (name, fmt) ∈ [("__setattr__", @setattr_formatter env); ("__delattr__", delattr_formatter)] ->
  exists m, class_getattr c name = Some m /\ mutating_methods c !! name = Some (m, fmt).
Proof.
  intros Hin.
  assert (Hnone : (list_to_map (@optional_operations env) : gmap string formatter) !! name = None).
  { apply not_elem_of_list_to_map_1.
    repeat (apply elem_of_cons in Hin as [Hin|Hin];
            [simplify_eq; apply (bool_decide_unpack _); by vm_compute|]).
    by apply elem_of_nil in Hin. }
  assert (Hget : exists m, class_getattr c name = Some m).
  { unfold class_getattr. destruct (cls_attrs c !! name); [eauto|].
    repeat (apply elem_of_cons in Hin as [Hin|Hin]; [simplify_eq; simpl; eauto|]).
    by apply elem_of_nil in Hin. }
  destruct Hget as [m Hm]. exists m. split; [done|].
  unfold mutating_methods, update_core.
  rewrite map_lookup_imap, lookup_add_optional by apply optional_names_nodup.
  rewrite Hnone. unfold core_methods.
  repeat (apply elem_of_cons in Hin as [Hin|Hin];
          [simplify_eq; rewrite ?lookup_insert_eq, ?lookup_insert_ne by done;
           rewrite ?lookup_insert_eq; simpl; by rewrite Hm|]).
  by apply elem_of_nil in Hin.
Qed.

Lemma wrap_class_inv debug pa c c' :
  wrap debug pa (DClass c) = Ok c' ->
  exists original_hash, c' = augmented debug pa c original_hash.
Proof.
  unfold wrap. destruct (cls_hash c); [done| |]; intros [= <-]; eauto.
Qed.

Lemma class_getattr_optional c name fmt :
  (name, fmt) ∈ @optional_operations env ->
  class_getattr c name = cls_attrs c !! name.
Proof.
  intros Hin. destruct (optional_entry name fmt Hin) as [_ Hc].
  unfold is_core in Hc. apply orb_false_iff in Hc as [H1 H2].
  unfold class_getattr. rewrite H1, H2. by destruct (cls_attrs c !! name).
Qed.

(** An optional operation that the class defines is replaced by its guard. *)
Lemma augmented_optional_defined debug pa c original_hash name fmt f :
  (name, fmt) ∈ @optional_operations env ->
  cls_attrs c !! name = Some (Some f) ->
  class_getattr (augmented debug pa c original_hash) name
  = Some (Some (protected_method debug pa c name (Some f) fmt)).
Proof.
  intros Hin Hdef. unfold class_getattr. simpl.
  erewrite lookup_union_Some_l; [done|].
  unfold guards. rewrite map_lookup_imap, (mutating_methods_optional c name fmt Hin).
  by rewrite (class_getattr_optional c name fmt Hin), Hdef.
Qed.

(** An optional operation that the class does not define gets no guard:
    the augmented class does not have it either. *)
Lemma augmented_optional_absent debug pa c original_hash name fmt :
  (name, fmt) ∈ @optional_operations env ->
  cls_attrs c !! name = None ->
  class_getattr (augmented debug pa c original_hash) name = None.
Proof.
  intros Hin Hdef.
  rewrite (class_getattr_optional _ name fmt Hin). simpl.
  rewrite lookup_union_r; [done|].
  unfold guards. rewrite map_lookup_imap, (mutating_methods_optional c name fmt Hin).
  by rewrite (class_getattr_optional c name fmt Hin), Hdef.
Qed.

(** The two core operations are always replaced by their guards. *)
Lemma augmented_core debug pa c original_hash name fmt f :
  (name, fmt) ∈ [("__setattr__", @setattr_formatter env); ("__delattr__", delattr_formatter)] ->
  class_getattr c name = Some (Some f) ->
  class_getattr (augmented debug pa c original_hash) name
  = Some (Some (protected_method debug pa c name (Some f) fmt)).
Proof.
  intros Hin Hdef. unfold class_getattr at 1. simpl.
  erewrite lookup_union_Some_l; [done|].
  destruct (mutating_methods_core c name fmt Hin) as (m & Hm & Hmm).
  unfold guards. rewrite map_lookup_imap, Hmm. simpl.
  rewrite Hdef in Hm. by injection Hm as <-.
Qed.

Lemma frozen_message_shape debug c o operation :
  exists rest, get_error_message debug c o operation = "Cannot " +:+ rest.
Proof.
  unfold get_error_message.
  destruct (if debug then getattr o "_hash_stack_trace" else None); eauto.
Qed.

(** Claim C4. Registering a class whose hash is the default one of
    [object] fails at once with an assertion error that names the class,
    in both call shapes and before any augmented class exists; registering
    something that is not a class fails with a type error instead. *)
Theorem registration_needs_custom_hash (debug : bool) (pa : option (list string))
    (name : string) (attrs : gmap string (option (method P))) (tyname text : string) :
  let c := mk_pyclass name HashObject attrs in
  wrap debug pa (DClass c)
  = Raise (AssertionError
      ("Class '" +:+ name
       +:+ "' must implement a custom __hash__ method to use the @lazy_freeze decorator. "
       +:+ "Implement __hash__ to define the object's hash value, which should be consistent with equality (__eq__)."))
  /\ lazy_freeze (Some (DClass c)) debug pa = inr (wrap debug pa (DClass c))
  /\ @lazy_freeze env P None debug pa = inl (wrap debug pa)
  /\ wrap debug pa (@DOther P tyname text)
     = Raise (TypeError
         ("@lazy_freeze can only be applied to classes, not " +:+ tyname
          +:+ ". Got " +:+ text +:+ " which is a " +:+ tyname +:+ ", not a class."))
  /\ wrap debug pa (DClass c) <> wrap debug pa (@DOther P tyname text).
Proof.
  intros c. repeat split. discriminate.
Qed.

(** Claim C6. For a registered class and an in-place operator that the
    class defines, on a frozen instance the operator is rejected with the
    mutation-rejected error and the instance is unchanged, whatever
    [protected_attrs] is. *)
Theorem inplace_operator_rejected_after_freeze
    (debug : bool) (pa : option (list string)) (c c' : pyclass P)
    (op : string) (fmt : formatter) (f : method P)
    (self : loc) (other : pyval) (kwargs : list (string * pyval)) (o : instance P)
    (Hreg : wrap debug pa (DClass c) = Ok c')
    (Hop : (op, fmt) ∈ inplace_operations)
    (Hdef : cls_attrs c !! op = Some (Some f))
    (Hfrozen : frozen o = true) :
  exists description,
    fmt [other] = Ok description
    /\ call_method c' op self [other] kwargs o
       = (Raise (TypeError (get_error_message debug c o description)), o).
Proof.
  destruct (wrap_class_inv _ _ _ _ Hreg) as [oh ->].
  assert (Hopt : (op, fmt) ∈ @optional_operations env).
  { unfold optional_operations. apply elem_of_app. by right. }
  assert (Hfmt : exists d, fmt [other] = Ok d /\ is_core op = false).
  { unfold inplace_operations in Hop.
    repeat (apply elem_of_cons in Hop as [Hop|Hop]; [simplify_eq; by eexists|]).
    by apply elem_of_nil in Hop. }
  destruct Hfmt as (d & Hd & Hcore). exists d. split; [done|].
  unfold call_method.
  rewrite (augmented_optional_defined debug pa c oh op fmt f Hopt Hdef). simpl.
  unfold protected_method, bind, get, lift, raise. simpl. rewrite Hfrozen.
  unfold is_core in Hcore. rewrite Hcore, andb_false_r. simpl. by rewrite Hd.
Qed.

(** Claim C5, as the code has it. An optional operation that the
    registered class does not define gets no guard, so on every instance,
    frozen or not, indexed assignment and deletion raise the type's normal
    unsupported-operation error, an explicit call of the method the normal
    missing-attribute error, the instance is unchanged, and neither
    message is the one of a freeze rejection. *)
Theorem undefined_operation_is_not_guarded
    (debug : bool) (pa : option (list string)) (c c' : pyclass P)
    (name : string) (fmt : formatter)
    (Hreg : wrap debug pa (DClass c) = Ok c')
    (Hop : (name, fmt) ∈ @optional_operations env)
    (Hundef : cls_attrs c !! name = None) :
  class_getattr c' name = None
  /\ (forall self args kwargs o,
        call_method c' name self args kwargs o
        = (Raise (AttributeError ("type object '" +:+ cls_name c
                                  +:+ "' has no attribute '" +:+ name +:+ "'")), o))
  /\ (name = "__setitem__" -> forall self key value o,
        setitem_stmt c' self key value o
        = (Raise (TypeError ("'" +:+ cls_name c
                             +:+ "' object does not support item assignment")), o))
  /\ (name = "__delitem__" -> forall self key o,
        delitem_stmt c' self key o
        = (Raise (TypeError ("'" +:+ cls_name c
                             +:+ "' object doesn't support item deletion")), o))
  /\ (forall o operation rest,
        get_error_message debug c o operation <> "'" +:+ rest
        /\ get_error_message debug c o operation <> "type object " +:+ rest).
Proof.
  destruct (wrap_class_inv _ _ _ _ Hreg) as [oh ->].
  pose proof (augmented_optional_absent debug pa c oh name fmt Hop Hundef) as Habs.
  split; [done|]. split; [|split; [|split]].
  - intros self args kwargs o. unfold call_method. by rewrite Habs.
  - intros -> self key value o. unfold setitem_stmt. by rewrite Habs.
  - intros -> self key o. unfold delitem_stmt. by rewrite Habs.
  - intros o operation rest.
    destruct (frozen_message_shape debug c o operation) as [r ->].
    split; discriminate.
Qed.

(** How a guard installed by [wrap] evaluates: on a frozen instance it
    rejects, unless the operation is an attribute one whose name is outside
    a non-empty [protected_attrs]; otherwise it is the original. *)
Lemma protected_method_outcome debug pa c name f fmt self args kwargs o :
  protected_method debug pa c name (Some f) fmt self args kwargs o
  = if frozen o
       && negb (protecting_some pa && is_core name
                && negb (in_protected pa (default VNone (head args))))
    then match fmt args with
         | Ok operation => (Raise (TypeError (get_error_message debug c o operation)), o)
         | Raise e => (Raise e, o)
         end
    else f self args kwargs o.
Proof.
  unfold protected_method, bind, get, lift, raise, is_core. simpl.
  destruct (frozen o); simpl; [|done].
  destruct (protecting_some pa && _ && _); simpl; [done|].
  by destruct (fmt args).
Qed.

(** Claim C2, as the code has it. With a non-empty [protected_attrs]: on
    a frozen instance, assigning or deleting an attribute whose name is not
    listed is the original operation, and one whose name is listed is
    rejected; assigning or deleting an item is rejected whatever the key;
    on an instance that is not frozen all four are the original
    operations. *)
Theorem selective_protection_covers_attributes_only
    (debug : bool) (names : list string) (c c' : pyclass P)
    (Hreg : wrap debug (Some names) (DClass c) = Ok c')
    (Hnames : names <> []) :
  (forall f self attr value o,
      class_getattr c "__setattr__" = Some (Some f) ->
      setattr_stmt c' self attr value o
      = if frozen o && bool_decide (attr ∈ names)
        then (Raise (TypeError (get_error_message debug c o
                                  ("modify attribute '" +:+ attr +:+ "' of"))), o)
        else f self [VStr attr; value] [] o)
  /\ (forall f self attr o,
        class_getattr c "__delattr__" = Some (Some f) ->
        delattr_stmt c' self attr o
        = if frozen o && bool_decide (attr ∈ names)
          then (Raise (TypeError (get_error_message debug c o
                                    ("delete attribute '" +:+ attr +:+ "' from"))), o)
          else f self [VStr attr] [] o)
  /\ (forall f self key value o,
        cls_attrs c !! "__setitem__" = Some (Some f) ->
        setitem_stmt c' self key value o
        = if frozen o
          then (Raise (TypeError (get_error_message debug c o
                                    ("modify item '" +:+ py_format key +:+ "' of"))), o)
          else f self [key; value] [] o)
  /\ (forall f self key o,
        cls_attrs c !! "__delitem__" = Some (Some f) ->
        delitem_stmt c' self key o
        = if frozen o
          then (Raise (TypeError (get_error_message debug c o
                                    ("delete item '" +:+ py_format key +:+ "' from"))), o)
          else f self [key] [] o).
Proof.
  destruct (wrap_class_inv _ _ _ _ Hreg) as [oh ->].
  assert (Hsome : protecting_some (Some names) = true) by by destruct names.
  repeat apply conj.
  - intros f self attr value o Hf. unfold setattr_stmt, call_method.
    rewrite (augmented_core debug (Some names) c oh "__setattr__" setattr_formatter f)
      by (done || by left).
    simpl. rewrite protected_method_outcome, Hsome. simpl.
    by destruct (frozen o), (bool_decide (attr ∈ names)).
  - intros f self attr o Hf. unfold delattr_stmt, call_method.
    rewrite (augmented_core debug (Some names) c oh "__delattr__" delattr_formatter f)
      by (done || by right; left).
    simpl. rewrite protected_method_outcome, Hsome. simpl.
    by destruct (frozen o), (bool_decide (attr ∈ names)).
  - intros f self key value o Hf. unfold setitem_stmt.
    erewrite (augmented_optional_defined debug (Some names) c oh "__setitem__" _ f);
      [|by left|done].
    simpl. rewrite protected_method_outcome. simpl.
    rewrite andb_false_r. simpl. by destruct (frozen o).
  - intros f self key o Hf. unfold delitem_stmt.
    erewrite (augmented_optional_defined debug (Some names) c oh "__delitem__" _ f);
      [|by right; left|done].
    simpl. rewrite protected_method_outcome. simpl.
    rewrite andb_false_r. simpl. by destruct (frozen o).
Qed.

End DecoratorFacts.

(* ===================================================================== *)
(** ** The capture site in diagnostics mode                                *)
(* ===================================================================== *)

Section CaptureSite.
Import Decorator.
Context {env : Builtins} {P : Type}.

(** Claim C3, as the code has it. In diagnostics mode a hash call stores
    the capture site of that very call, whatever was stored before, in the
    sequence container and in the generic wrapper alike; the entity is
    frozen, and the message of a later rejection shows the site of the
    latest hash call. *)
Theorem capture_site_is_that_of_latest_hash
    (frames : list string) (self : loc)
    (l : LfList.lf_list) (Hdebug : py_truthy (LfList._debug l) = true)
    (pa : option (list string)) (c c' : pyclass P) (f : hash_method P)
    (o o1 : instance P) (hv : Z)
    (Hreg : wrap true pa (DClass c) = Ok c')
    (Hdefined : cls_hash c = HashDefined f)
    (Hhash : f frames self o = (Ok hv, o1)) :
  let l' := (LfList.__hash__ frames self l).2 in
  let o' := (hash_call c' frames self o).2 in
  (LfList.hash_taken l' = true
   /\ LfList._hash_stack l' = Some frames
   /\ forall v, LfList.append self v l'
                = (Raise (TypeError ("Cannot modify lf_list, hash was taken at "
                                     +:+ stack_str frames)), l'))
  /\ (hash_call c' frames self o = (Ok hv, o')
      /\ frozen o' = true
      /\ getattr o' "_hash_stack_trace"
         = Some (VStr (String.concat "" (removelast frames)))
      /\ forall operation,
           get_error_message true c o' operation
           = "Cannot " +:+ operation +:+ " " +:+ cls_name c
             +:+ " after its hash has been taken." +:+ newline
             +:+ "Hash was calculated at:" +:+ newline
             +:+ String.concat "" (removelast frames)).
Proof.
  intros l' o'. split.
  - assert (Hl' : l' = LfList.mk_lf_list (LfList.data l) true (LfList._debug l) (Some frames)).
    { subst l'. unfold LfList.__hash__, bind, modify, get, lift, ret. simpl.
      rewrite Hdebug. simpl. by destruct (py_hash_tuple (LfList.data l)). }
    rewrite Hl'. split; [done|]. split; [done|].
    intros v. unfold LfList.append. unfold bind at 1.
    rewrite validate_passes_check, raise_if_frozen_frozen by done.
    unfold LfList.frozen_error. simpl. by rewrite Hdebug.
  - assert (Hc' : cls_hash c' = HashDefined (hash_wrapper true (Some f))).
    { unfold wrap in Hreg. rewrite Hdefined in Hreg. by injection Hreg as <-. }
    assert (Ho' : hash_call c' frames self o
                  = (Ok hv, set_dict (<["_hash_stack_trace" :=
                                         VStr (String.concat "" (removelast frames))]>
                                       (<["hash_taken" := VBool true]> (inst_dict o1))) o1)).
    { unfold hash_call. rewrite Hc'. unfold hash_wrapper, bind, modify, ret.
      by rewrite Hhash. }
    subst o'. rewrite Ho'. simpl. split; [done|].
    unfold frozen, get_error_message, getattr. simpl.
    rewrite lookup_insert_eq, lookup_insert_ne, lookup_insert_eq by done.
    done.
Qed.

End CaptureSite.

(* ===================================================================== *)
(** ** The statements on concrete objects                                  *)
(* ===================================================================== *)

Section Concrete.
Import LfList Decorator Examples.
#[local] Existing Instance plain_builtins.

(** C2 as stated fails: with [protected_attrs=["name"]] a frozen dict-like
    instance rejects the assignment and the deletion of an item whose key
    is not listed, where the original methods would have stored and
    removed it. *)
Lemma unlisted_item_key_is_rejected_after_freeze :
  match wrap false (Some ["name"]) (DClass DictLike) with
  | Ok c' =>
      frozen frozen_dict = true
      /\ in_protected (Some ["name"]) (VStr "color") = false
      /\ setitem_stmt c' 1%positive (VStr "color") (VInt 3) frozen_dict
         = (Raise (TypeError
              "Cannot modify item 'color' of DictLike after its hash has been taken"),
            frozen_dict)
      /\ dict_setitem 1%positive [VStr "color"; VInt 3] [] frozen_dict
         = (Ok RNone, set_store [(VStr "color", VInt 3); (VStr "a", VInt 1)] frozen_dict)
      /\ in_protected (Some ["name"]) (VStr "a") = false
      /\ delitem_stmt c' 1%positive (VStr "a") frozen_dict
         = (Raise (TypeError
              "Cannot delete item 'a' from DictLike after its hash has been taken"),
            frozen_dict)
      /\ dict_delitem 1%positive [VStr "a"] [] frozen_dict
         = (Ok RNone, set_store [] frozen_dict)
  | Raise _ => False
  end.
Proof. vm_compute. repeat split. Qed.

(** C3 as stated fails: with diagnostics on, a second hash call replaces
    the capture site stored by the first, in the sequence container and in
    the generic wrapper, and the rejection that follows shows the second
    site. *)
Lemma second_hash_replaces_capture_site :
  let l1 := (__hash__ ["main"; "first_use"] 1%positive diagnosing_one_two).2 in
  let l2 := (__hash__ ["main"; "second_use"] 1%positive l1).2 in
  let o1 := (hash_call DebugPerson ["main"; "first_use"; "__hash__"] 1%positive alice).2 in
  let o2 := (hash_call DebugPerson ["main"; "second_use"; "__hash__"] 1%positive o1).2 in
  wrap true None (DClass Person) = Ok DebugPerson
  /\ _hash_stack l1 = Some ["main"; "first_use"]
  /\ _hash_stack l2 = Some ["main"; "second_use"]
  /\ _hash_stack l2 <> _hash_stack l1
  /\ (append 1%positive (VInt 3) l2).1
     = Raise (TypeError "Cannot modify lf_list, hash was taken at main, second_use")
  /\ getattr o1 "_hash_stack_trace" = Some (VStr "mainfirst_use")
  /\ getattr o2 "_hash_stack_trace" = Some (VStr "mainsecond_use")
  /\ getattr o2 "_hash_stack_trace" <> getattr o1 "_hash_stack_trace"
  /\ (setattr_stmt DebugPerson 1%positive "age" (VInt 31) o2).1
     = Raise (TypeError
         ("Cannot modify attribute 'age' of Person after its hash has been taken."
          +:+ newline +:+ "Hash was calculated at:" +:+ newline +:+ "mainsecond_use")).
Proof. vm_compute. repeat split; discriminate. Qed.

(** C5 as stated fails: [Person] has no indexed assignment, and on a frozen
    instance [obj[k] = v] still raises the normal unsupported-operation
    error, which is not the message of any freeze rejection. *)
Lemma missing_operation_error_unchanged_after_freeze :
  match wrap false None (DClass Person) with
  | Ok c' =>
      frozen frozen_alice = true
      /\ setitem_stmt c' 1%positive (VStr "k") (VInt 1) frozen_alice
         = (Raise (TypeError "'Person' object does not support item assignment"),
            frozen_alice)
      /\ forall operation,
           get_error_message false Person frozen_alice operation
           <> "'Person' object does not support item assignment"
  | Raise _ => False
  end.
Proof.
  vm_compute. repeat split. intros operation. discriminate.
Qed.

(** C9 as stated fails: on an unfrozen container indexed assignment and
    deletion return [None] and not the container, and [extend] raises,
    its check being called without the sequence, leaving the elements as
    they were. *)
Lemma setitem_returns_none_and_extend_raises :
  __setitem__ 1%positive 0 (VInt 9) one_two_three
  = (Ok RNone, mk_lf_list [VInt 9; VInt 2; VInt 3] false (VBool false) None)
  /\ __delitem__ 1%positive 0 one_two_three
     = (Ok RNone, mk_lf_list [VInt 2; VInt 3] false (VBool false) None)
  /\ RNone <> RObj 1%positive
  /\ extend 1%positive (VList [VInt 4; VInt 5]) one_two_three
     = (Raise (TypeError
          "lf_list.validate_sequence() missing 1 required positional argument: 'sequence'"),
        one_two_three).
Proof. repeat split. discriminate. Qed.

(** The amended C2 on the dict-like class registered with
    [protected_attrs=["name"]]. *)
Lemma selective_protection_witness :
  let c' := augmented false (Some ["name"]) DictLike (Some dict_hash) in
  wrap false (Some ["name"]) (DClass DictLike) = Ok c'
  /\ ["name"] <> []
  /\ setattr_stmt c' 1%positive "note" (VStr "x") frozen_dict
     = object_setattr 1%positive [VStr "note"; VStr "x"] [] frozen_dict
  /\ setattr_stmt c' 1%positive "name" (VStr "x") frozen_dict
     = (Raise (TypeError
          "Cannot modify attribute 'name' of DictLike after its hash has been taken"),
        frozen_dict)
  /\ setitem_stmt c' 1%positive (VStr "color") (VInt 3) frozen_dict
     = (Raise (TypeError
          "Cannot modify item 'color' of DictLike after its hash has been taken"),
        frozen_dict).
Proof.
  intros c'.
  assert (Hreg : wrap false (Some ["name"]) (DClass DictLike) = Ok c') by reflexivity.
  assert (Hne : ["name"] <> []) by discriminate.
  destruct (selective_protection_covers_attributes_only
              false ["name"] DictLike c' Hreg Hne) as (Hset & _ & Hitem & _).
  split; [exact Hreg|]. split; [exact Hne|]. split; [|split].
  - rewrite (Hset object_setattr) by reflexivity. vm_compute. reflexivity.
  - rewrite (Hset object_setattr) by reflexivity. vm_compute. reflexivity.
  - rewrite (Hitem dict_setitem) by reflexivity. vm_compute. reflexivity.
Defined.

(** The amended C3 on a container with diagnostics on and on
    [DebugPerson]. *)
Lemma capture_site_witness :
  let frames := ["main"; "use"; "__hash__"] in
  py_truthy (_debug diagnosing_one_two) = true
  /\ wrap true None (DClass Person) = Ok DebugPerson
  /\ person_hash frames 1%positive alice
     = (Ok (plain_tuple_hash [VStr "Alice"; VInt 30]), alice)
  /\ _hash_stack (__hash__ frames 1%positive diagnosing_one_two).2 = Some frames
  /\ getattr (hash_call DebugPerson frames 1%positive alice).2 "_hash_stack_trace"
     = Some (VStr "mainuse").
Proof.
  intros frames.
  assert (Hd : py_truthy (_debug diagnosing_one_two) = true) by reflexivity.
  assert (Hreg : wrap true None (DClass Person) = Ok DebugPerson) by reflexivity.
  assert (Hh : person_hash frames 1%positive alice
               = (Ok (plain_tuple_hash [VStr "Alice"; VInt 30]), alice))
    by (vm_compute; reflexivity).
  destruct (capture_site_is_that_of_latest_hash frames 1%positive diagnosing_one_two Hd
              None Person DebugPerson person_hash alice alice _ Hreg eq_refl Hh)
    as [(_ & Hstack & _) (_ & _ & Htrace & _)].
  split; [exact Hd|]. split; [exact Hreg|]. split; [exact Hh|].
  split; [exact Hstack|exact Htrace].
Defined.

(** The amended C5 on [Person], which has no indexed assignment. *)
Lemma undefined_operation_witness :
  let c' := augmented false None Person (Some person_hash) in
  wrap false None (DClass Person) = Ok c'
  /\ cls_attrs Person !! "__setitem__" = None
  /\ setitem_stmt c' 1%positive (VStr "k") (VInt 1) alice
     = (Raise (TypeError "'Person' object does not support item assignment"), alice)
  /\ setitem_stmt c' 1%positive (VStr "k") (VInt 1) frozen_alice
     = (Raise (TypeError "'Person' object does not support item assignment"), frozen_alice).
Proof.
  intros c'.
  assert (Hreg : wrap false None (DClass Person) = Ok c') by reflexivity.
  assert (Hundef : cls_attrs Person !! "__setitem__" = None) by reflexivity.
  assert (Hop : ("__setitem__",
                 lambda2 (fun key value => "modify item '" +:+ py_format key +:+ "' of"))
                ∈ optional_operations) by (unfold optional_operations, item_operations; left).
  destruct (undefined_operation_is_not_guarded false None Person c' "__setitem__" _
              Hreg Hop Hundef) as (_ & _ & Hset & _).
  split; [exact Hreg|]. split; [exact Hundef|].
  split; apply (Hset eq_refl).
Defined.

(** C6 on [Counter] with a frozen instance. *)
Lemma inplace_operator_witness :
  let c' := augmented false (Some ["value"]) Counter (Some counter_hash) in
  wrap false (Some ["value"]) (DClass Counter) = Ok c'
  /\ cls_attrs Counter !! "__iadd__" = Some (Some counter_iadd)
  /\ frozen frozen_counter = true
  /\ call_method c' "__iadd__" 1%positive [VInt 3] [] frozen_counter
     = (Raise (TypeError
          "Cannot modify with in-place addition Counter after its hash has been taken"),
        frozen_counter).
Proof.
  intros c'.
  assert (Hreg : wrap false (Some ["value"]) (DClass Counter) = Ok c') by reflexivity.
  assert (Hdef : cls_attrs Counter !! "__iadd__" = Some (Some counter_iadd)) by reflexivity.
  assert (Hfrozen : frozen frozen_counter = true) by reflexivity.
  assert (Hop : ("__iadd__", lambda1 (fun other => "modify with in-place addition"))
                ∈ inplace_operations) by (unfold inplace_operations; left).
  destruct (inplace_operator_rejected_after_freeze false (Some ["value"]) Counter c'
              "__iadd__" _ counter_iadd 1%positive (VInt 3) [] frozen_counter
              Hreg Hop Hdef Hfrozen) as (d & Hd & Hcall).
  split; [exact Hreg|]. split; [exact Hdef|]. split; [exact Hfrozen|].
  rewrite Hcall. injection Hd as <-. reflexivity.
Defined.

(** The amended C9 on the container [[1, 2, 3]]. *)
Lemma lf_list_unfrozen_operations_witness :
  let h : heap := {[ 1%positive := one_two_three ]} in
  h !! 1%positive = Some one_two_three
  /\ hash_taken one_two_three = false
  /\ call 1%positive (fun self => append self (VInt 4)) h
     = (Ok (RObj 1%positive),
        <[1%positive := mk_lf_list [VInt 1; VInt 2; VInt 3; VInt 4] false
                          (VBool false) None]> h)
  /\ call 1%positive (fun self => insert self 1 (VInt 9)) h
     = (Ok (RObj 1%positive),
        <[1%positive := mk_lf_list [VInt 1; VInt 9; VInt 2; VInt 3] false
                          (VBool false) None]> h)
  /\ call 1%positive (fun self => insert self (2 ^ 64) (VInt 9)) h
     = (Raise (OverflowError "Python int too large to convert to C ssize_t"), h)
  /\ call 1%positive (fun self => __setitem__ self 0 (VInt 9)) h
     = (Ok RNone,
        <[1%positive := mk_lf_list [VInt 9; VInt 2; VInt 3] false (VBool false) None]> h)
  /\ call 1%positive (fun self => pop self None) h
     = (Ok (RVal (VInt 3)),
        <[1%positive := mk_lf_list [VInt 1; VInt 2] false (VBool false) None]> h).
Proof.
  intros h.
  assert (Hobj : h !! 1%positive = Some one_two_three) by reflexivity.
  assert (Hun : hash_taken one_two_three = false) by reflexivity.
  destruct (lf_list_unfrozen_operations h 1%positive one_two_three Hobj Hun)
    as (Happend & Hinsert & _ & _ & _ & _ & _ & Hpop & Hset & _).
  split; [exact Hobj|]. split; [exact Hun|]. split; [|split; [|split; [|split]]].
  - apply Happend.
  - apply (Hinsert 1%Z (VInt 9)).
  - apply (Hinsert (2 ^ 64)%Z (VInt 9)).
  - apply (Hset 0%Z (VInt 9)).
  - apply (Hpop None).
Defined.

(** C10 as stated fails: with a container as right operand [a + b]
    returns [a], but a third container holding [[1, 2, 3]] is created at a
    location where none was, the storage of [a] is rebound to it, and the
    list of [a] still holds [[1, 2]]. *)
Lemma add_of_two_containers_creates_a_third :
  let la := mk_lf_list [VInt 1; VInt 2] false (VBool false) None in
  let lb := mk_lf_list [VInt 3] false (VBool false) None in
  let w := mk_world (<[2%positive := lb]> (<[1%positive := la]> ∅)) ∅ in
  let created := mk_lf_list [VInt 1; VInt 2; VInt 3] false (VBool false) None in
  containers w !! 3%positive = None
  /\ add_container 1%positive 2%positive w
     = Some (Ok (RObj 1%positive),
             mk_world (<[3%positive := created]> (containers w))
                      (<[1%positive := 3%positive]> ∅))
  /\ <[3%positive := created]> (containers w) !! 1%positive = Some la.
Proof. vm_compute. repeat split. Qed.

(** The amended C10 on the container [[1, 2, 3]], with a list and with a
    frozen container as right operand. *)
Lemma lf_list_add_witness :
  let w := mk_world (<[2%positive := frozen_one_two]> (<[1%positive := one_two_three]> ∅))
             ∅ in
  containers w !! 1%positive = Some one_two_three
  /\ containers w !! 2%positive = Some frozen_one_two
  /\ py_iter (VList [VInt 4; VInt 5]) = Ok [VInt 4; VInt 5]
  /\ call 1%positive (fun self => __add__ self (VList [VInt 4; VInt 5])) (containers w)
     = (Ok (RObj 1%positive),
        <[1%positive := mk_lf_list [VInt 1; VInt 2; VInt 3; VInt 4; VInt 5] false
                          (VBool false) None]> (containers w))
  /\ add_container 1%positive 2%positive w
     = Some (Ok (RObj 1%positive),
             mk_world
               (<[fresh (dom (containers w)) :=
                    mk_lf_list [VInt 1; VInt 2; VInt 3; VInt 1; VInt 2] false
                      (VBool false) None]> (containers w))
               (<[1%positive := fresh (dom (containers w))]> ∅)).
Proof.
  intros w.
  assert (H1 : containers w !! 1%positive = Some one_two_three) by reflexivity.
  assert (H2 : containers w !! 2%positive = Some frozen_one_two) by reflexivity.
  assert (Hit : py_iter (VList [VInt 4; VInt 5]) = Ok [VInt 4; VInt 5]) by reflexivity.
  destruct (lf_list_add_extends_or_rebinds w 1%positive 2%positive one_two_three
              frozen_one_two (VList [VInt 4; VInt 5]) [VInt 4; VInt 5]
              H1 H2 eq_refl eq_refl Hit) as (Hlist & _ & _ & Hcontainer).
  split; [exact H1|]. split; [exact H2|]. split; [exact Hit|].
  split; [exact Hlist|exact Hcontainer].
Defined.

End Concrete.

(* ===================================================================== *)
(** ** Further properties of [lf_list]                                     *)
(* ===================================================================== *)

Section LfListInvariants.
Import LfList.
Context {env : Builtins}.
Implicit Types (o : lf_list) (h : heap) (self a : loc) (v value : pyval).

(** Hashing keeps the elements and the diagnostics flag, and sets the
    frozen flag. *)
Lemma hash_fields frames self o :
  (__hash__ frames self o).2
  = mk_lf_list (data o) true (_debug o)
      (if py_truthy (_debug o) then Some frames else _hash_stack o).
Proof.
  unfold __hash__, bind, modify, get, lift, ret. simpl.
  destruct (py_truthy (_debug o)); simpl; by destruct (py_hash_tuple (data o)).
Qed.

Lemma hash_result frames self o :
  (__hash__ frames self o).1 = py_hash_tuple (data o).
Proof.
  unfold __hash__, bind, modify, get, lift, ret. simpl.
  destruct (py_truthy (_debug o)); simpl; by destruct (py_hash_tuple (data o)).
Qed.

Lemma run_op_frozen_fields (p : op) self o :
  hash_taken o = true ->
  data (run_op p self o).2 = data o
  /\ hash_taken (run_op p self o).2 = true
  /\ _debug (run_op p self o).2 = _debug o.
Proof.
  intros Hf. destruct (mutating p) eqn:Hm.
  - destruct (frozen_rejects p self o Hf Hm) as [e ->]. done.
  - destruct p; try discriminate Hm. simpl. unfold bind.
    pose proof (hash_fields frames self o) as Hh.
    destruct (__hash__ frames self o) as [[z|e] o']; simpl in *; by subst.
Qed.

(** X1. A frozen container rejects each of the twelve mutating operations
    with a [TypeError] and keeps all its fields: the frozen error, except
    that [extend] fails on its own missing argument and that [+]/[+=] with
    a right operand that cannot be iterated report that first when
    diagnostics are on. *)
Theorem frozen_container_rejects_every_mutation (p : op) (self : loc) (o : lf_list)
    (Hfrozen : hash_taken o = true) (Hmutating : mutating p = true) :
  run_op p self o
  = (Raise match p with
           | OpExtend _ =>
               TypeError
                 "lf_list.validate_sequence() missing 1 required positional argument: 'sequence'"
           | OpAdd other | OpIadd other =>
               match py_iter other with
               | Raise e => if py_truthy (_debug o) then e else frozen_error o
               | Ok _ => frozen_error o
               end
           | _ => frozen_error o
           end, o).
Proof.
  destruct p; try discriminate Hmutating; simpl;
    rewrite ?iadd_is_add, ?add_outcome, ?Hfrozen;
    unfold __setitem__, __delitem__, append, extend, insert, pop, remove, clear,
      reverse, sort;
    try (unfold bind at 1;
         rewrite ?validate_passes_check, ?raise_if_frozen_frozen by done; done).
  all: destruct (py_iter other); simpl; by destruct (py_truthy (_debug o)).
Qed.

(** X2. Once a container is frozen, no run of the thirteen operations
    that [lf_list.py] defines (its [__hash__] and its twelve mutators),
    with diagnostics on or off, changes its elements, clears the frozen
    flag or alters the diagnostics flag.  (The inherited [*=] is not one of
    them, see X17.) *)
Theorem frozen_elements_never_change (ops : list op) (a : loc) (h : heap) (o : lf_list)
    (Hobj : h !! a = Some o) (Hfrozen : hash_taken o = true) :
  exists o', run_ops ops a h !! a = Some o'
             /\ data o' = data o /\ hash_taken o' = true /\ _debug o' = _debug o.
Proof.
  revert h o Hobj Hfrozen. induction ops as [|p ops IH]; intros h o Hobj Hfrozen.
  - exists o. by simpl.
  - simpl. rewrite (call_at a _ h o) by done. simpl.
    destruct (run_op_frozen_fields p a o Hfrozen) as (Hd & Hf & Hg).
    destruct (IH (<[a := (run_op p a o).2]> h) (run_op p a o).2) as (o' & Ho' & Hd' & Hf' & Hg').
    + apply lookup_insert_eq.
    + done.
    + exists o'. repeat split; congruence.
Qed.

(** X3. A hash that fails because an element is unhashable has already
    frozen the container: the [TypeError] of the builtin hash is raised,
    the frozen flag is set, and later mutations are rejected. *)
Theorem failed_hash_still_freezes (frames : list string) (self : loc) (o : lf_list)
    (t : string) (Hunhashable : unhashable_type (VTuple (data o)) = Some t) :
  let o' := mk_lf_list (data o) true (_debug o)
              (if py_truthy (_debug o) then Some frames else _hash_stack o) in
  __hash__ frames self o = (Raise (TypeError ("unhashable type: '" +:+ t +:+ "'")), o')
  /\ forall v, append self v o' = (Raise (frozen_error o'), o').
Proof.
  intros o'. split.
  - rewrite (surjective_pairing (__hash__ frames self o)).
    rewrite hash_fields, hash_result. unfold py_hash_tuple. by rewrite Hunhashable.
  - intros v. unfold append. unfold bind at 1.
    by rewrite validate_passes_check, raise_if_frozen_frozen.
Qed.

(** X4. On hashable elements the hash is that of the tuple of the
    elements and leaves them as they are; a second hash call returns the
    same value, and changes nothing but the stored capture site, which it
    replaces when diagnostics are on. *)
Theorem hash_is_repeatable (frames1 frames2 : list string) (self : loc) (o : lf_list)
    (Hhashable : unhashable_type (VTuple (data o)) = None) :
  let o1 := (__hash__ frames1 self o).2 in
  (__hash__ frames1 self o).1 = Ok (tuple_hash (data o))
  /\ data o1 = data o
  /\ hash_taken o1 = true
  /\ __hash__ frames2 self o1
     = (Ok (tuple_hash (data o)),
        if py_truthy (_debug o) then set_hash_stack (Some frames2) o1 else o1).
Proof.
  intros o1. subst o1. rewrite hash_fields, hash_result.
  unfold py_hash_tuple. rewrite Hhashable. repeat split.
  rewrite (surjective_pairing (__hash__ frames2 self _)).
  rewrite hash_fields, hash_result. simpl.
  unfold py_hash_tuple. rewrite Hhashable.
  by destruct (py_truthy (_debug o)).
Qed.

(** X5. [extend] never appends: whatever the container (frozen or not,
    diagnostics on or off) and whatever the argument, it raises the
    [TypeError] of its own call to [validate_sequence], made without the
    sequence, and the container is unchanged. *)
Theorem extend_never_appends (h : heap) (a : loc) (o : lf_list) (iterable : pyval)
    (Hobj : h !! a = Some o) :
  call a (fun self => extend self iterable) h
  = (Raise (TypeError
       "lf_list.validate_sequence() missing 1 required positional argument: 'sequence'"),
     h).
Proof.
  rewrite (call_at a _ h o) by done. simpl. by rewrite insert_id.
Qed.

(** X6. On an unfrozen container [pop()] undoes [append(v)]: it returns
    [v] and the elements are as before the append. *)
Theorem pop_undoes_append (self : loc) (v : pyval) (o : lf_list)
    (Hunfrozen : hash_taken o = false) :
  append self v o = (Ok (RObj self), set_data (data o ++ [v]) o)
  /\ pop self None (set_data (data o ++ [v]) o) = (Ok (RVal v), o).
Proof.
  split.
  - unfold append, update_data, bind. by rewrite validate_unfrozen.
  - unfold pop, bind. rewrite validate_unfrozen by done. simpl.
    assert (Hpop : list_pop (-1) (data o ++ [v]) = Ok (v, data o)).
    { unfold list_pop, norm_index. rewrite length_app. simpl.
      destruct (data o ++ [v]) eqn:Happ; [by destruct (data o)|]. rewrite <- Happ.
      replace (-1 + Z.of_nat (length (data o) + 1))%Z with (Z.of_nat (length (data o))) by lia.
      assert (H1 : (0 <=? Z.of_nat (length (data o)))%Z = true) by (apply Z.leb_le; lia).
      assert (H2 : (Z.of_nat (length (data o)) <? Z.of_nat (length (data o) + 1))%Z = true)
        by (apply Z.ltb_lt; lia).
      rewrite H1, H2. simpl. rewrite Nat2Z.id.
      rewrite list_lookup_middle by done.
      by rewrite delete_middle, app_nil_r. }
    rewrite Hpop. simpl. by destruct o.
Qed.

(** X7. On an unfrozen container deleting at [i] undoes [insert(i, v)],
    for every position [0 <= i <= len]. *)
Theorem delitem_undoes_insert (self : loc) (i : nat) (v : pyval) (o : lf_list)
    (Hunfrozen : hash_taken o = false) (Hrange : i <= length (data o)) :
  insert self (Z.of_nat i) v o
  = (Ok (RObj self), set_data (take i (data o) ++ v :: drop i (data o)) o)
  /\ __delitem__ self (Z.of_nat i) (set_data (take i (data o) ++ v :: drop i (data o)) o)
     = (Ok RNone, o).
Proof.
  assert (Hpos : (Z.of_nat i <? 0)%Z = false) by (apply Z.ltb_ge; lia).
  set (d' := take i (data o) ++ v :: drop i (data o)).
  assert (Hins : list_insert (Z.of_nat i) v (data o) = Ok d').
  { unfold list_insert. rewrite fits_ssize_position by lia. simpl.
    unfold list_insert_at. rewrite Hpos.
    by rewrite Z.min_l, Nat2Z.id by lia. }
  assert (Hlen' : length d' = S (length (data o))).
  { subst d'. rewrite length_app. simpl. rewrite length_take, length_drop. lia. }
  assert (Hdel : list_delitem (Z.of_nat i) d' = Ok (data o)).
  { unfold list_delitem. rewrite fits_ssize_position by lia. simpl.
    unfold norm_index. rewrite Hpos, Hlen'.
    assert (H1 : (0 <=? Z.of_nat i)%Z = true) by (apply Z.leb_le; lia).
    assert (H2 : (Z.of_nat i <? Z.of_nat (S (length (data o))))%Z = true)
      by (apply Z.ltb_lt; lia).
    rewrite H1, H2. simpl. rewrite Nat2Z.id.
    assert (Hlen : length (take i (data o)) = i) by (rewrite length_take; lia).
    subst d'. rewrite <- Hlen at 1. by rewrite delete_middle, take_drop. }
  split.
  - unfold insert, update_data, bind. rewrite validate_unfrozen by done.
    unfold get, lift. by rewrite Hins.
  - unfold __delitem__, update_data, bind. rewrite validate_unfrozen by done.
    unfold get, lift. cbn [data set_data]. rewrite Hdel.
    unfold modify, ret. simpl. by destruct o.
Qed.

(** X8. On an unfrozen container reversing twice gives the elements
    back in their order, each call returning the container. *)
Theorem reverse_twice_restores (self : loc) (o : lf_list)
    (Hunfrozen : hash_taken o = false) :
  reverse self o = (Ok (RObj self), set_data (rev (data o)) o)
  /\ reverse self (set_data (rev (data o)) o) = (Ok (RObj self), o).
Proof.
  split.
  - unfold reverse, update_data, bind. by rewrite validate_unfrozen.
  - unfold reverse, update_data, bind. rewrite validate_unfrozen by done.
    simpl. rewrite rev_involutive. by destruct o.
Qed.

Lemma run_appends (xs : list pyval) a h o :
  h !! a = Some o ->
  run_ops (OpAppend <$> xs) a h
  = if hash_taken o then h else <[a := set_data (data o ++ xs) o]> h.
Proof.
  revert h o. induction xs as [|x xs IH]; intros h o Hobj.
  - simpl. rewrite app_nil_r, set_data_same, insert_id by done.
    by destruct (hash_taken o).
  - simpl. change (list_fmap pyval op OpAppend xs) with (OpAppend <$> xs).
    rewrite (call_at a _ h o) by done. cbn [run_op fst snd].
    unfold append, update_data. unfold bind at 1.
    rewrite validate_passes_check.
    destruct (hash_taken o) eqn:Hf.
    + rewrite raise_if_frozen_frozen by done. cbn [fst snd].
      rewrite insert_id by done. rewrite (IH h o) by done. by rewrite Hf.
    + rewrite raise_if_frozen_unfrozen by done.
      unfold bind, get, lift, modify, ret. cbn [fst snd data].
      rewrite (IH _ (set_data (data o ++ [x]) o)) by apply lookup_insert_eq.
      simpl. rewrite Hf, insert_insert_eq. unfold set_data. simpl.
      by rewrite <- app_assoc.
Qed.

(** X9. [a + xs] for a list [xs] leaves the heap as appending the items
    of [xs] one by one does, on a frozen container (nothing changes) and
    on an unfrozen one. *)
Theorem add_is_repeated_append (xs : list pyval) (a : loc) (h : heap) (o : lf_list)
    (Hobj : h !! a = Some o) :
  (call a (fun self => __add__ self (VList xs)) h).2
  = run_ops (OpAppend <$> xs) a h.
Proof.
  rewrite (call_at a _ h o) by done. rewrite add_outcome, (run_appends xs a h o) by done.
  simpl. destruct (hash_taken o); simpl; [by apply insert_id|done].
Qed.


End LfListInvariants.

(* ===================================================================== *)
(** ** Further properties of the decorator                                 *)
(* ===================================================================== *)

Section DecoratorLayer.
Import Decorator.
Context {env : Builtins} {P : Type}.
Implicit Types (c : pyclass P) (o : instance P) (self : loc) (name : string).

Lemma set_dict_same o : set_dict (inst_dict o) o = o.
Proof. by destruct o. Qed.

Lemma core_entry_is_core name fmt :
  (name, fmt) ∈ [("__setattr__", @setattr_formatter env); ("__delattr__", delattr_formatter)] ->
  is_core name = true.
Proof.
  intros Hin.
  repeat (apply elem_of_cons in Hin as [Hin|Hin]; [by simplify_eq|]).
  by apply elem_of_nil in Hin.
Qed.

(** A core operation gets its guard whatever the class has for it. *)
Lemma augmented_core_any d pa c oh name fmt :
  (name, fmt) ∈ [("__setattr__", @setattr_formatter env); ("__delattr__", delattr_formatter)] ->
  exists m, class_getattr c name = Some m
            /\ class_getattr (augmented d pa c oh) name
               = Some (Some (protected_method d pa c name m fmt)).
Proof.
  intros Hin. destruct (mutating_methods_core c name fmt Hin) as (m & Hm & Hmm).
  exists m. split; [done|]. unfold class_getattr at 1. simpl.
  erewrite lookup_union_Some_l; [done|].
  unfold guards. rewrite map_lookup_imap, Hmm. simpl.
  destruct m; [done|]. by rewrite (core_entry_is_core name fmt Hin).
Qed.

(** An optional operation that the class has as [None] is left so. *)
Lemma augmented_optional_none d pa c oh name fmt :
  (name, fmt) ∈ @optional_operations env ->
  cls_attrs c !! name = Some None ->
  class_getattr (augmented d pa c oh) name = Some None.
Proof.
  intros Hin Hdef. destruct (optional_entry name fmt Hin) as [_ Hc].
  rewrite (class_getattr_optional _ name fmt Hin). simpl.
  rewrite lookup_union_r; [done|].
  unfold guards. rewrite map_lookup_imap, (mutating_methods_optional c name fmt Hin).
  rewrite (class_getattr_optional c name fmt Hin), Hdef. simpl. by rewrite Hc.
Qed.

(** Names outside the catalogue are not touched. *)
Lemma augmented_other d pa c oh name :
  name ∉ ([("__setattr__", @setattr_formatter env); ("__delattr__", delattr_formatter)]
          ++ optional_operations).*1 ->
  class_getattr (augmented d pa c oh) name = class_getattr c name.
Proof.
  intros Hn. rewrite fmap_app in Hn. apply not_elem_of_app in Hn as [Hcore Hopt].
  assert (Hc : is_core name = false).
  { simpl in Hcore. rewrite !not_elem_of_cons in Hcore. destruct Hcore as (H1 & H2 & _).
    unfold is_core. apply orb_false_iff. split; by apply String.eqb_neq. }
  assert (Hg : guards d pa c !! name = None).
  { unfold guards, mutating_methods, update_core.
    rewrite !map_lookup_imap, lookup_add_optional by apply optional_names_nodup.
    rewrite (not_elem_of_list_to_map_1 _ _ Hopt).
    by rewrite core_methods_not_core. }
  unfold class_getattr. simpl. by rewrite lookup_union_r.
Qed.

(** A guard placed over a guard of the same configuration behaves as the
    inner guard. *)
Lemma guard_of_guard d pa c1 c2 name original fmt self args kwargs o :
  cls_name c2 = cls_name c1 ->
  protected_method d pa c2 name (Some (protected_method d pa c1 name original fmt)) fmt
    self args kwargs o
  = protected_method d pa c1 name original fmt self args kwargs o.
Proof.
  intros Hname.
  assert (Hmsg : forall operation,
             get_error_message d c2 o operation = get_error_message d c1 o operation).
  { intros operation. unfold get_error_message. by rewrite Hname. }
  unfold protected_method at 1. unfold bind, get, lift, raise. simpl.
  destruct (frozen o) eqn:Hf.
  - destruct (protecting_some pa && _ && _) eqn:Hcond.
    + done.
    + unfold protected_method, bind, get, lift, raise. simpl.
      rewrite Hf, Hcond. destruct (fmt args); by rewrite ?Hmsg.
  - done.
Qed.

(** X10. The replacement [__hash__] runs the class's hash first: when
    that raises, the exception is passed on and the instance is left as the
    hash left it, without the frozen flag being set; when it returns, the
    value is passed on unchanged and the wrapper writes [hash_taken] (and,
    with diagnostics, the trace) and nothing else. *)
Theorem hash_wrapper_freezes_after_the_hash
    (debug : bool) (pa : option (list string)) (c c' : pyclass P) (f : hash_method P)
    (frames : list string) (self : loc) (o o1 : instance P) (r : result Z)
    (Hreg : wrap debug pa (DClass c) = Ok c')
    (Hdefined : cls_hash c = HashDefined f)
    (Hhash : f frames self o = (r, o1)) :
  let marked :=
    if debug
    then <["_hash_stack_trace" := VStr (String.concat "" (removelast frames))]>
           (<["hash_taken" := VBool true]> (inst_dict o1))
    else <["hash_taken" := VBool true]> (inst_dict o1) in
  hash_call c' frames self o
  = (r, match r with
        | Ok _ => set_dict marked o1
        | Raise _ => o1
        end)
  /\ frozen (hash_call c' frames self o).2
     = match r with
       | Ok _ => true
       | Raise _ => frozen o1
       end.
Proof.
  intros marked.
  assert (Hc' : cls_hash c' = HashDefined (hash_wrapper debug (Some f))).
  { unfold wrap in Hreg. rewrite Hdefined in Hreg. by injection Hreg as <-. }
  assert (Hcall : hash_call c' frames self o
                  = (r, match r with Ok _ => set_dict marked o1 | Raise _ => o1 end)).
  { unfold hash_call. rewrite Hc'. unfold hash_wrapper, bind, modify, ret.
    rewrite Hhash. subst marked. destruct r; [|done]. by destruct debug. }
  split; [done|]. rewrite Hcall. destruct r; [|done]. simpl.
  subst marked. unfold frozen, getattr. simpl.
  destruct debug; by rewrite ?lookup_insert_ne, lookup_insert_eq by done.
Qed.

(** X11. Without diagnostics, hashing an instance that is already frozen
    with a hash that reads without writing returns the same value and
    leaves the instance exactly as it was. *)
Theorem rehash_leaves_frozen_instance_unchanged
    (pa : option (list string)) (c c' : pyclass P) (f : hash_method P)
    (frames : list string) (self : loc) (o : instance P) (hv : Z)
    (Hreg : wrap false pa (DClass c) = Ok c')
    (Hdefined : cls_hash c = HashDefined f)
    (Hflag : getattr o "hash_taken" = Some (VBool true))
    (Hpure : f frames self o = (Ok hv, o)) :
  hash_call c' frames self o = (Ok hv, o).
Proof.
  assert (Hc' : cls_hash c' = HashDefined (hash_wrapper false (Some f))).
  { unfold wrap in Hreg. rewrite Hdefined in Hreg. by injection Hreg as <-. }
  unfold hash_call. rewrite Hc'. unfold hash_wrapper, bind, modify, ret.
  rewrite Hpure. unfold getattr in Hflag.
  by rewrite insert_id, set_dict_same.
Qed.

(** X12. With [protected_attrs] absent or empty every attribute is
    protected: on a frozen instance assigning or deleting any attribute is
    rejected and the instance is unchanged, and before the freeze both are
    the class's own operations. *)
Theorem empty_protection_protects_every_attribute
    (debug : bool) (pa : option (list string)) (c c' : pyclass P)
    (Hreg : wrap debug pa (DClass c) = Ok c')
    (Hall : pa = None \/ pa = Some []) :
  (forall f self attr value o,
      class_getattr c "__setattr__" = Some (Some f) ->
      setattr_stmt c' self attr value o
      = if frozen o
        then (Raise (TypeError (get_error_message debug c o
                                  ("modify attribute '" +:+ attr +:+ "' of"))), o)
        else f self [VStr attr; value] [] o)
  /\ (forall f self attr o,
        class_getattr c "__delattr__" = Some (Some f) ->
        delattr_stmt c' self attr o
        = if frozen o
          then (Raise (TypeError (get_error_message debug c o
                                    ("delete attribute '" +:+ attr +:+ "' from"))), o)
          else f self [VStr attr] [] o).
Proof.
  destruct (wrap_class_inv _ _ _ _ Hreg) as [oh ->].
  assert (Hnone : protecting_some pa = false) by by destruct Hall as [-> | ->].
  split.
  - intros f self attr value o Hf. unfold setattr_stmt, call_method.
    rewrite (augmented_core debug pa c oh "__setattr__" setattr_formatter f)
      by (done || by left).
    simpl. rewrite protected_method_outcome, Hnone. simpl.
    by rewrite andb_true_r.
  - intros f self attr o Hf. unfold delattr_stmt, call_method.
    rewrite (augmented_core debug pa c oh "__delattr__" delattr_formatter f)
      by (done || by right; left).
    simpl. rewrite protected_method_outcome, Hnone. simpl.
    by rewrite andb_true_r.
Qed.

(** X13. The frozen flag is an ordinary attribute: under selective
    protection that does not list [hash_taken], assigning [False] to it on
    a frozen instance goes through to [object.__setattr__], after which the
    instance is no longer frozen and every attribute, listed or not, can be
    assigned again. *)
Theorem selective_protection_lets_the_flag_be_reset
    (debug : bool) (names : list string) (c c' : pyclass P)
    (self : loc) (o : instance P)
    (Hreg : wrap debug (Some names) (DClass c) = Ok c')
    (Hnames : names <> [])
    (Hflag : "hash_taken" ∉ names)
    (Hdefault : cls_attrs c !! "__setattr__" = None)
    (Hfrozen : frozen o = true) :
  let o' := set_dict (<["hash_taken" := VBool false]> (inst_dict o)) o in
  setattr_stmt c' self "hash_taken" (VBool false) o = (Ok RNone, o')
  /\ frozen o' = false
  /\ forall attr value,
       setattr_stmt c' self attr value o'
       = (Ok RNone, set_dict (<[attr := value]> (inst_dict o')) o').
Proof.
  intros o'.
  destruct (wrap_class_inv _ _ _ _ Hreg) as [oh ->].
  assert (Hsome : protecting_some (Some names) = true) by by destruct names.
  assert (Hobj : class_getattr c "__setattr__" = Some (Some object_setattr)).
  { unfold class_getattr. by rewrite Hdefault. }
  assert (Hunfrozen : frozen o' = false).
  { subst o'. unfold frozen, getattr. simpl. by rewrite lookup_insert_eq. }
  assert (Hstmt : forall attr value x,
             setattr_stmt (augmented debug (Some names) c oh) self attr value x
             = protected_method debug (Some names) c "__setattr__" (Some object_setattr)
                 setattr_formatter self [VStr attr; value] [] x).
  { intros attr value x. unfold setattr_stmt, call_method.
    by rewrite (augmented_core debug (Some names) c oh "__setattr__" setattr_formatter
                  object_setattr) by (done || by left). }
  split; [|split; [done|]].
  - rewrite Hstmt, protected_method_outcome, Hfrozen, Hsome. simpl.
    by rewrite bool_decide_eq_false_2.
  - intros attr value. rewrite Hstmt, protected_method_outcome, Hunfrozen. done.
Qed.

(** X14. A class whose [__hash__] is [None], as a class that defines
    [__eq__] alone has it, passes registration; hashing an instance of the
    registered class then raises a [TypeError] for calling [None] and does
    not freeze the instance. *)
Theorem none_hash_passes_registration
    (debug : bool) (pa : option (list string)) (name : string)
    (attrs : gmap string (option (method P)))
    (frames : list string) (self : loc) (o : instance P) :
  let c := mk_pyclass name HashNoneAttr attrs in
  wrap debug pa (DClass c) = Ok (augmented debug pa c None)
  /\ hash_call c frames self o = (Raise (TypeError ("unhashable type: '" +:+ name +:+ "'")), o)
  /\ hash_call (augmented debug pa c None) frames self o
     = (Raise (TypeError "'NoneType' object is not callable"), o).
Proof. done. Qed.

(** X15. [wrap] guards exactly what exists: an optional operation gets a
    guard if and only if the class has a function for it, and is otherwise
    left absent or [None]; the two attribute operations always get one;
    every other attribute and the name of the class are untouched. *)
Theorem guards_follow_the_class
    (debug : bool) (pa : option (list string)) (c c' : pyclass P)
    (Hreg : wrap debug pa (DClass c) = Ok c') :
  cls_name c' = cls_name c
  /\ (forall name fmt, (name, fmt) ∈ @optional_operations env ->
        class_getattr c' name
        = match cls_attrs c !! name with
          | Some (Some f) => Some (Some (protected_method debug pa c name (Some f) fmt))
          | Some None => Some None
          | None => None
          end)
  /\ (forall name fmt,
        (name, fmt) ∈ [("__setattr__", @setattr_formatter env);
                       ("__delattr__", delattr_formatter)] ->
        exists m, class_getattr c name = Some m
                  /\ class_getattr c' name
                     = Some (Some (protected_method debug pa c name m fmt)))
  /\ (forall name,
        name ∉ ([("__setattr__", @setattr_formatter env);
                 ("__delattr__", delattr_formatter)] ++ optional_operations).*1 ->
        class_getattr c' name = class_getattr c name).
Proof.
  destruct (wrap_class_inv _ _ _ _ Hreg) as [oh ->].
  split; [done|]. split; [|split].
  - intros name fmt Hin. destruct (cls_attrs c !! name) as [[f|]|] eqn:Hdef.
    + by apply augmented_optional_defined.
    + by apply (augmented_optional_none _ _ _ _ _ fmt).
    + by apply (augmented_optional_absent _ _ _ _ _ fmt).
  - intros name fmt Hin. by apply augmented_core_any.
  - intros name Hn. by apply augmented_other.
Qed.

(** X16. Registering an already registered class again with the same
    options changes no behaviour: every method call, the item statements
    and the hash of the twice-registered class give what those of the
    once-registered class give. *)
Theorem registering_twice_changes_nothing
    (debug : bool) (pa : option (list string)) (c c' c'' : pyclass P)
    (Hreg : wrap debug pa (DClass c) = Ok c')
    (Hagain : wrap debug pa (DClass c') = Ok c'') :
  (forall name self args kwargs o,
      call_method c'' name self args kwargs o = call_method c' name self args kwargs o)
  /\ (forall self key value o,
        setitem_stmt c'' self key value o = setitem_stmt c' self key value o)
  /\ (forall self key o, delitem_stmt c'' self key o = delitem_stmt c' self key o)
  /\ (forall frames self o, hash_call c'' frames self o = hash_call c' frames self o).
Proof.
  destruct (wrap_class_inv _ _ _ _ Hreg) as [oh ->].
  unfold wrap in Hagain. simpl in Hagain. injection Hagain as <-.
  set (c1 := augmented debug pa c oh).
  set (c2 := augmented debug pa c1 (Some (hash_wrapper debug oh))).
  assert (Hname : cls_name c2 = cls_name c1) by done.
  (* what the twice-registered class has under a name *)
  assert (Hlookup : forall name,
             class_getattr c2 name = class_getattr c1 name
             \/ exists m fmt,
                  class_getattr c1 name
                  = Some (Some (protected_method debug pa c name m fmt))
                  /\ class_getattr c2 name
                     = Some (Some (protected_method debug pa c1 name
                                     (Some (protected_method debug pa c name m fmt)) fmt))).
  { intros name.
    destruct (decide (name ∈ ([("__setattr__", @setattr_formatter env);
                               ("__delattr__", delattr_formatter)]
                              ++ optional_operations).*1)) as [Hin|Hout].
    - apply list_elem_of_fmap in Hin as ([n fmt] & -> & Hin). simpl.
      apply elem_of_app in Hin as [Hcore|Hopt].
      + right. destruct (augmented_core_any debug pa c oh n fmt Hcore) as (m & _ & H1).
        destruct (augmented_core_any debug pa c1 (Some (hash_wrapper debug oh)) n fmt Hcore)
          as (m' & Hm' & H2).
        fold c1 in H1. fold c2 in H2. rewrite H1 in Hm'. injection Hm' as <-.
        by exists m, fmt.
      + pose proof (class_getattr_optional c1 n fmt Hopt) as Hc1.
        destruct (cls_attrs c !! n) as [[f|]|] eqn:Hdef.
        * right. exists (Some f), fmt.
          pose proof (augmented_optional_defined debug pa c oh n fmt f Hopt Hdef) as H1.
          fold c1 in H1. split; [done|].
          apply augmented_optional_defined; [done|]. by rewrite <- Hc1.
        * left.
          pose proof (augmented_optional_none debug pa c oh n fmt Hopt Hdef) as H1.
          fold c1 in H1. rewrite H1.
          apply (augmented_optional_none _ _ _ _ _ fmt); [done|]. by rewrite <- Hc1.
        * left.
          pose proof (augmented_optional_absent debug pa c oh n fmt Hopt Hdef) as H1.
          fold c1 in H1. rewrite H1.
          apply (augmented_optional_absent _ _ _ _ _ fmt); [done|]. by rewrite <- Hc1.
    - left. by apply augmented_other. }
  split; [|split; [|split]].
  - intros name self args kwargs o. unfold call_method.
    destruct (Hlookup name) as [-> | (m & fmt & -> & ->)]; [by rewrite Hname|].
    simpl. by apply guard_of_guard.
  - intros self key value o. unfold setitem_stmt.
    destruct (Hlookup "__setitem__") as [-> | (m & fmt & -> & ->)]; [by rewrite Hname|].
    simpl. by apply guard_of_guard.
  - intros self key o. unfold delitem_stmt.
    destruct (Hlookup "__delitem__") as [-> | (m & fmt & -> & ->)]; [by rewrite Hname|].
    simpl. by apply guard_of_guard.
  - intros frames self o. unfold hash_call. simpl.
    unfold hash_wrapper at 1. unfold bind at 1 2 3.
    destruct (hash_wrapper debug oh frames self o) as [[hv|e] o1] eqn:Hinner; [|done].
    unfold modify, ret. simpl.
    assert (Hmarked : inst_dict o1 !! "hash_taken" = Some (VBool true)
                      /\ (debug = true ->
                          inst_dict o1 !! "_hash_stack_trace"
                          = Some (VStr (String.concat "" (removelast frames))))).
    { unfold hash_wrapper, bind, modify, ret in Hinner.
      destruct (match oh with Some f => f frames self | None => _ end o) as [[hv0|e0] o0];
        [|done].
      destruct debug; injection Hinner as _ <-; simpl;
        split; try done; by rewrite ?lookup_insert_ne, lookup_insert_eq by done. }
    destruct Hmarked as [Hflag Htrace].
    destruct debug.
    + rewrite (insert_id (inst_dict o1) "hash_taken") by done.
      simpl. rewrite set_dict_same.
      rewrite (insert_id (inst_dict o1) "_hash_stack_trace") by apply (Htrace eq_refl).
      by rewrite set_dict_same.
    + rewrite (insert_id (inst_dict o1) "hash_taken") by done.
      by rewrite set_dict_same.
Qed.

End DecoratorLayer.

(* ===================================================================== *)
(** ** The further properties on concrete objects                          *)
(* ===================================================================== *)

Section ConcreteFurther.
Import LfList Decorator Examples.
#[local] Existing Instance plain_builtins.

Lemma frozen_container_rejects_witness :
  hash_taken frozen_one_two = true
  /\ mutating (OpInsert 0 (VInt 9)) = true
  /\ run_op (OpInsert 0 (VInt 9)) 1%positive frozen_one_two
     = (Raise (TypeError "Cannot modify lf_list after hash is taken"), frozen_one_two).
Proof.
  split; [reflexivity|]. split; [reflexivity|].
  apply (frozen_container_rejects_every_mutation (OpInsert 0 (VInt 9)) 1%positive
           frozen_one_two eq_refl eq_refl).
Defined.

Lemma frozen_elements_witness :
  let h : heap := {[ 1%positive := frozen_one_two ]} in
  let ops := [OpAppend (VInt 3); OpHash ["main"]; OpClear; OpPop None; OpAdd (VList [VInt 7])] in
  h !! 1%positive = Some frozen_one_two
  /\ hash_taken frozen_one_two = true
  /\ exists o', run_ops ops 1%positive h !! 1%positive = Some o'
                /\ data o' = [VInt 1; VInt 2] /\ hash_taken o' = true
                /\ _debug o' = VBool false.
Proof.
  intros h ops. split; [reflexivity|]. split; [reflexivity|].
  apply (frozen_elements_never_change ops 1%positive h frozen_one_two eq_refl eq_refl).
Defined.

Lemma failed_hash_witness :
  let o := mk_lf_list [VInt 1; VList [VInt 2]] false (VBool false) None in
  unhashable_type (VTuple (data o)) = Some "list"
  /\ __hash__ ["main"] 1%positive o
     = (Raise (TypeError "unhashable type: 'list'"),
        mk_lf_list [VInt 1; VList [VInt 2]] true (VBool false) None).
Proof.
  intros o. split; [reflexivity|].
  apply (failed_hash_still_freezes ["main"] 1%positive o "list" eq_refl).
Defined.

Lemma hash_is_repeatable_witness :
  unhashable_type (VTuple (data one_two_three)) = None
  /\ __hash__ ["again"] 1%positive (__hash__ ["main"] 1%positive one_two_three).2
     = (Ok (plain_tuple_hash [VInt 1; VInt 2; VInt 3]),
        mk_lf_list [VInt 1; VInt 2; VInt 3] true (VBool false) None).
Proof.
  split; [reflexivity|].
  destruct (hash_is_repeatable ["main"] ["again"] 1%positive one_two_three eq_refl)
    as (_ & _ & _ & Hagain).
  exact Hagain.
Defined.

Lemma extend_never_appends_witness :
  let h : heap := {[ 1%positive := one_two_three ]} in
  h !! 1%positive = Some one_two_three
  /\ call 1%positive (fun self => extend self (VList [VInt 4])) h
     = (Raise (TypeError
          "lf_list.validate_sequence() missing 1 required positional argument: 'sequence'"),
        h).
Proof.
  intros h. split; [reflexivity|].
  apply (extend_never_appends h 1%positive one_two_three (VList [VInt 4]) eq_refl).
Defined.

Lemma pop_undoes_append_witness :
  hash_taken one_two_three = false
  /\ pop 1%positive None (set_data [VInt 1; VInt 2; VInt 3; VInt 4] one_two_three)
     = (Ok (RVal (VInt 4)), one_two_three).
Proof.
  split; [reflexivity|].
  apply (pop_undoes_append 1%positive (VInt 4) one_two_three eq_refl).
Defined.

Lemma delitem_undoes_insert_witness :
  hash_taken one_two_three = false
  /\ 1 <= length (data one_two_three)
  /\ insert 1%positive 1 (VInt 9) one_two_three
     = (Ok (RObj 1%positive), set_data [VInt 1; VInt 9; VInt 2; VInt 3] one_two_three)
  /\ __delitem__ 1%positive 1 (set_data [VInt 1; VInt 9; VInt 2; VInt 3] one_two_three)
     = (Ok RNone, one_two_three).
Proof.
  assert (Hrange : 1 <= length (data one_two_three)) by (simpl; lia).
  split; [reflexivity|]. split; [exact Hrange|].
  apply (delitem_undoes_insert 1%positive 1 (VInt 9) one_two_three eq_refl Hrange).
Defined.

Lemma reverse_twice_witness :
  hash_taken one_two_three = false
  /\ reverse 1%positive (set_data [VInt 3; VInt 2; VInt 1] one_two_three)
     = (Ok (RObj 1%positive), one_two_three).
Proof.
  split; [reflexivity|].
  apply (reverse_twice_restores 1%positive one_two_three eq_refl).
Defined.

Lemma add_is_repeated_append_witness :
  let h : heap := {[ 1%positive := one_two_three ]} in
  h !! 1%positive = Some one_two_three
  /\ (call 1%positive (fun self => __add__ self (VList [VInt 4; VInt 5])) h).2
     = run_ops [OpAppend (VInt 4); OpAppend (VInt 5)] 1%positive h.
Proof.
  intros h. split; [reflexivity|].
  apply (add_is_repeated_append [VInt 4; VInt 5] 1%positive h one_two_three eq_refl).
Defined.

Lemma hash_wrapper_witness :
  let c' := augmented false None Person (Some person_hash) in
  let frames := ["main"; "__hash__"] in
  wrap false None (DClass Person) = Ok c'
  /\ cls_hash Person = HashDefined person_hash
  /\ person_hash frames 1%positive alice
     = (Ok (plain_tuple_hash [VStr "Alice"; VInt 30]), alice)
  /\ hash_call c' frames 1%positive alice
     = (Ok (plain_tuple_hash [VStr "Alice"; VInt 30]),
        set_dict (<["hash_taken" := VBool true]> (inst_dict alice)) alice)
  /\ frozen (hash_call c' frames 1%positive alice).2 = true.
Proof.
  intros c' frames.
  assert (Hreg : wrap false None (DClass Person) = Ok c') by reflexivity.
  assert (Hh : person_hash frames 1%positive alice
               = (Ok (plain_tuple_hash [VStr "Alice"; VInt 30]), alice))
    by (vm_compute; reflexivity).
  split; [exact Hreg|]. split; [reflexivity|]. split; [exact Hh|].
  apply (hash_wrapper_freezes_after_the_hash false None Person c' person_hash frames
           1%positive alice alice _ Hreg eq_refl Hh).
Defined.

Lemma rehash_witness :
  let c' := augmented false None Person (Some person_hash) in
  wrap false None (DClass Person) = Ok c'
  /\ getattr frozen_alice "hash_taken" = Some (VBool true)
  /\ person_hash ["again"] 1%positive frozen_alice
     = (Ok (plain_tuple_hash [VStr "Alice"; VInt 30]), frozen_alice)
  /\ hash_call c' ["again"] 1%positive frozen_alice
     = (Ok (plain_tuple_hash [VStr "Alice"; VInt 30]), frozen_alice).
Proof.
  intros c'.
  assert (Hreg : wrap false None (DClass Person) = Ok c') by reflexivity.
  assert (Hflag : getattr frozen_alice "hash_taken" = Some (VBool true)) by reflexivity.
  assert (Hh : person_hash ["again"] 1%positive frozen_alice
               = (Ok (plain_tuple_hash [VStr "Alice"; VInt 30]), frozen_alice))
    by (vm_compute; reflexivity).
  split; [exact Hreg|]. split; [exact Hflag|]. split; [exact Hh|].
  apply (rehash_leaves_frozen_instance_unchanged None Person c' person_hash ["again"]
           1%positive frozen_alice _ Hreg eq_refl Hflag Hh).
Defined.

Lemma empty_protection_witness :
  let c' := augmented false (Some []) Person (Some person_hash) in
  wrap false (Some []) (DClass Person) = Ok c'
  /\ setattr_stmt c' 1%positive "age" (VInt 32) frozen_alice
     = (Raise (TypeError
          "Cannot modify attribute 'age' of Person after its hash has been taken"),
        frozen_alice)
  /\ setattr_stmt c' 1%positive "age" (VInt 32) alice
     = object_setattr 1%positive [VStr "age"; VInt 32] [] alice.
Proof.
  intros c'.
  assert (Hreg : wrap false (Some []) (DClass Person) = Ok c') by reflexivity.
  destruct (empty_protection_protects_every_attribute false (Some []) Person c' Hreg
              (or_intror eq_refl)) as [Hset _].
  split; [exact Hreg|]. split.
  - rewrite (Hset object_setattr) by reflexivity. vm_compute. reflexivity.
  - rewrite (Hset object_setattr) by reflexivity. vm_compute. reflexivity.
Defined.

Lemma flag_reset_witness :
  let c' := augmented false (Some ["name"; "age"]) Person (Some person_hash) in
  let thawed := set_dict (<["hash_taken" := VBool false]> (inst_dict frozen_alice))
                  frozen_alice in
  wrap false (Some ["name"; "age"]) (DClass Person) = Ok c'
  /\ ("hash_taken" ∉ ["name"; "age"])
  /\ frozen frozen_alice = true
  /\ setattr_stmt c' 1%positive "hash_taken" (VBool false) frozen_alice = (Ok RNone, thawed)
  /\ setattr_stmt c' 1%positive "name" (VStr "Bob") thawed
     = (Ok RNone, set_dict (<["name" := VStr "Bob"]> (inst_dict thawed)) thawed).
Proof.
  intros c' thawed.
  assert (Hreg : wrap false (Some ["name"; "age"]) (DClass Person) = Ok c') by reflexivity.
  assert (Hne : ["name"; "age"] <> []) by discriminate.
  assert (Hflag : "hash_taken" ∉ ["name"; "age"]).
  { apply (bool_decide_unpack _). vm_compute. exact I. }
  destruct (selective_protection_lets_the_flag_be_reset false ["name"; "age"] Person c'
              1%positive frozen_alice Hreg Hne Hflag eq_refl eq_refl)
    as (Hreset & _ & Hassign).
  split; [exact Hreg|]. split; [exact Hflag|]. split; [reflexivity|].
  split; [exact Hreset|apply Hassign].
Defined.

Lemma guards_follow_the_class_witness :
  let c' := augmented false None Counter (Some counter_hash) in
  wrap false None (DClass Counter) = Ok c'
  /\ cls_name c' = "Counter"
  /\ class_getattr c' "__iadd__"
     = Some (Some (protected_method false None Counter "__iadd__" (Some counter_iadd)
                     (lambda1 (fun other => "modify with in-place addition"))))
  /\ class_getattr c' "__isub__" = None
  /\ class_getattr c' "__eq__" = class_getattr Counter "__eq__".
Proof.
  intros c'.
  assert (Hreg : wrap false None (DClass Counter) = Ok c') by reflexivity.
  destruct (guards_follow_the_class false None Counter c' Hreg)
    as (Hname & Hopt & _ & Hother).
  split; [exact Hreg|]. split; [exact Hname|]. split; [|split].
  - apply (Hopt "__iadd__"). unfold optional_operations, item_operations, inplace_operations.
    simpl. right. right. left.
  - apply (Hopt "__isub__" (lambda1 (fun other => "modify with in-place subtraction"))).
    unfold optional_operations, item_operations, inplace_operations.
    simpl. right. right. right. left.
  - apply Hother. apply (bool_decide_unpack _). vm_compute. exact I.
Defined.

Lemma registering_twice_witness :
  let c' := augmented false None DictLike (Some dict_hash) in
  let c'' := augmented false None c' (Some (hash_wrapper false (Some dict_hash))) in
  wrap false None (DClass DictLike) = Ok c'
  /\ wrap false None (DClass c') = Ok c''
  /\ setitem_stmt c'' 1%positive (VStr "k") (VInt 1) frozen_dict
     = setitem_stmt c' 1%positive (VStr "k") (VInt 1) frozen_dict
  /\ hash_call c'' ["main"] 1%positive frozen_dict
     = hash_call c' ["main"] 1%positive frozen_dict.
Proof.
  intros c' c''.
  assert (Hreg : wrap false None (DClass DictLike) = Ok c') by reflexivity.
  assert (Hagain : wrap false None (DClass c') = Ok c'') by reflexivity.
  destruct (registering_twice_changes_nothing false None DictLike c' c'' Hreg Hagain)
    as (_ & Hset & _ & Hhash).
  split; [exact Hreg|]. split; [exact Hagain|]. split; [apply Hset|apply Hhash].
Defined.


End ConcreteFurther.
